(** * node-sql-api: the Products CRUD handlers over a shared mssql pool

  A shallow embedding of
    - config/database.js  (the connection configuration and [poolPromise]),
    - database/routes/products.js  (the five route handlers),
  together with a reference model of the store the handlers talk to, and
  the properties of the handlers that the specification states.

  JavaScript values are an inductive type; a handler is a computation in
  a small state-and-exception monad whose state holds the store, the log
  of statements submitted to it and the response object [res]. *)

From Stdlib Require Import ZArith NArith QArith Qround String Ascii List Bool Lia.
From Stdlib Require Import Sorting.Sorted Sorting.Permutation.
From Stdlib Require Import DecimalString DecimalZ DecimalPos.
Import ListNotations.

Local Open Scope string_scope.
Local Open Scope Z_scope.

(* ===================================================================== *)
(** ** JavaScript values                                                  *)
(* ===================================================================== *)

Module Js.

(** The values a parsed JSON body, a route parameter or a result row can
    hold.  A number is a finite rational: [JSON.parse] and the driver
    never hand the handlers a NaN, and only the zero test of a number
    matters to the handlers. *)
#[local] Unset Elimination Schemes.
Inductive JsVal : Type :=
| JUndefined
| JNull
| JBool (b : bool)
| JNum (q : Q)
| JStr (s : string)
| JArr (elements : list JsVal)
| JObj (fields : list (string * JsVal)).
#[local] Set Elimination Schemes.

(** An object literal: own properties in order. *)
Definition JsObject := list (string * JsVal).

(** ToBoolean.  [!v] in the source is [negb (truthy v)]. *)
Definition truthy (v : JsVal) : bool :=
  match v with
  | JUndefined => false
  | JNull => false
  | JBool b => b
  | JNum q => negb (Qeq_bool q 0)
  | JStr s => negb (String.eqb s EmptyString)
  | JArr _ => true
  | JObj _ => true
  end.

(** [a || b]. *)
Definition js_or (a b : JsVal) : JsVal := if truthy a then a else b.

(** Reading an own property of an object; [undefined] when absent.  This
    is also what a destructuring pattern [{ k } = o] binds. *)
Fixpoint get_field (k : string) (o : JsObject) : JsVal :=
  match o with
  | [] => JUndefined
  | (k', v) :: rest => if String.eqb k k' then v else get_field k rest
  end.

(** The message of the TypeError V8 raises on a property read from
    [undefined] or [null]. *)
Definition cannot_read (of_what key : string) : string :=
  "Cannot read properties of " ++ of_what ++ " (reading '" ++ key ++ "')".

(** [v.key] for a named property: throws on a nullish [v] (the [inr]
    case carries the error message). *)
Definition member (v : JsVal) (key : string) : JsVal + string :=
  match v with
  | JUndefined => inr (cannot_read "undefined" key)
  | JNull => inr (cannot_read "null" key)
  | JObj o => inl (get_field key o)
  | _ => inl JUndefined
  end.

(** The first result set of a query result, [result.recordset]: an array
    of rows, or [undefined] ([None]) when the statement produced none. *)
Definition Recordset := option (list JsVal).

(** [recordset.length === 0]. *)
Definition recordset_is_empty (rs : Recordset) : bool + string :=
  match rs with
  | None => inr (cannot_read "undefined" "length")
  | Some rows => inl (Nat.eqb (List.length rows) 0)
  end.

(** [recordset[0]]: [undefined] past the end of the array. *)
Definition recordset_first (rs : Recordset) : JsVal + string :=
  match rs with
  | None => inr (cannot_read "undefined" "0")
  | Some rows => inl (hd JUndefined rows)
  end.

(** The value handed to [res.json] for [recordset]. *)
Definition recordset_value (rs : Recordset) : JsVal :=
  match rs with
  | None => JUndefined
  | Some rows => JArr rows
  end.

(** A settled promise. *)
Inductive Promise (A : Type) : Type :=
| Fulfilled (value : A)
| Rejected (reason : string).
Arguments Fulfilled {A} value.
Arguments Rejected {A} reason.

(** One [console.log] call: the text and, when given, the error object
    printed after it. *)
Definition Console := list (string * option string).

(** [p.then(f)] where [f] logs and returns a value. *)
Definition then_ {A B : Type} (p : Promise A * Console)
           (f : A -> B * Console) : Promise B * Console :=
  match p with
  | (Fulfilled a, out) => let (b, out') := f a in (Fulfilled b, (out ++ out')%list)
  | (Rejected e, out) => (Rejected e, out)
  end.

(** [p.catch(h)] where [h] logs and returns nothing: the promise it
    yields fulfills with [undefined], here [None]. *)
Definition catch_ {A : Type} (p : Promise A * Console)
           (h : string -> Console) : Promise (option A) * Console :=
  match p with
  | (Fulfilled a, out) => (Fulfilled (Some a), out)
  | (Rejected e, out) => (Fulfilled None, (out ++ h e)%list)
  end.

(** [undefined] or [null]. *)
Definition nullish (v : JsVal) : bool :=
  match v with
  | JUndefined | JNull => true
  | _ => false
  end.

(** The message of the TypeError V8 raises when a destructuring pattern
    is matched against [undefined] or [null]. *)
Definition cannot_destructure (key source of_what : string) : string :=
  "Cannot destructure property '" ++ key ++ "' of '" ++ source
  ++ "' as it is " ++ of_what ++ ".".

(** [const { key, ... } = source]: the properties the pattern binds its
    names from.  The pattern throws on [undefined] and [null], naming its
    first key; an object gives its own properties, and any other value
    has none of the names the handlers ask for. *)
Definition destructure (key source : string) (v : JsVal) : JsObject + string :=
  match v with
  | JUndefined => inr (cannot_destructure key source "undefined")
  | JNull => inr (cannot_destructure key source "null")
  | JObj o => inl o
  | _ => inl []
  end.

(** *** [parseInt] with no radix argument

    A text is the UTF-8 encoding of the JavaScript string, one [ascii]
    per byte. *)

(** A number that [parseInt] can return: NaN, an integer that is a
    double, or an infinity.  Minus zero is not told from zero. *)
Inductive JsNumber : Type :=
| NaN
| Finite (value : Z)
| Infinity (negative : bool).

(** The double nearest to an integer: the integer itself when it has at
    most 53 bits; otherwise it is rounded to 53 significant bits, a tie
    going to the even neighbour, and is infinite from 2^1024 on. *)
Definition nearest_double (m : Z) : JsNumber :=
  let a := Z.abs m in
  let bits := Z.log2 a + 1 in
  if bits <=? 53 then Finite m
  else
    let shift := bits - 53 in
    let q := Z.shiftr a shift in
    let r := a - Z.shiftl q shift in
    let half := Z.shiftl 1 (shift - 1) in
    let q' := if (half <? r) || ((r =? half) && Z.odd q) then q + 1 else q in
    let rounded := Z.shiftl q' shift in
    if 2 ^ 1024 <=? rounded then Infinity (m <? 0)
    else Finite (Z.sgn m * rounded).

(** White space of one byte: space, tab, line feed, vertical tab, form
    feed and carriage return. *)
Definition is_ascii_space (c : ascii) : bool :=
  let n := nat_of_ascii c in
  (Nat.eqb n 32 || (Nat.leb 9 n && Nat.leb n 13))%bool.

(** White space of two bytes: U+00A0. *)
Definition is_space2 (c1 c2 : ascii) : bool :=
  (Nat.eqb (nat_of_ascii c1) 194 && Nat.eqb (nat_of_ascii c2) 160)%bool.

(** White space of three bytes: U+1680, U+2000 to U+200A, U+2028, U+2029,
    U+202F, U+205F, U+3000 and U+FEFF. *)
Definition is_space3 (c1 c2 c3 : ascii) : bool :=
  let a := nat_of_ascii c1 in
  let b := nat_of_ascii c2 in
  let c := nat_of_ascii c3 in
  ((Nat.eqb a 225 && (Nat.eqb b 154 && Nat.eqb c 128))
   || (Nat.eqb a 226
       && ((Nat.eqb b 128
            && ((Nat.leb 128 c && Nat.leb c 138)
                || Nat.eqb c 168 || Nat.eqb c 169 || Nat.eqb c 175))
           || (Nat.eqb b 129 && Nat.eqb c 159)))
   || (Nat.eqb a 227 && (Nat.eqb b 128 && Nat.eqb c 128))
   || (Nat.eqb a 239 && (Nat.eqb b 187 && Nat.eqb c 191)))%bool.

(** The text after its leading white space and line terminators. *)
Fixpoint skip_spaces (s : string) : string :=
  match s with
  | String c1 rest1 =>
      if is_ascii_space c1 then skip_spaces rest1
      else
        match rest1 with
        | String c2 rest2 =>
            if is_space2 c1 c2 then skip_spaces rest2
            else
              match rest2 with
              | String c3 rest3 =>
                  if is_space3 c1 c2 c3 then skip_spaces rest3 else s
              | EmptyString => s
              end
        | EmptyString => s
        end
  | EmptyString => s
  end.

(** The value of a digit in the given radix, if it is one. *)
Definition digit_value (radix : Z) (c : ascii) : option Z :=
  let n := Z.of_nat (nat_of_ascii c) in
  let d := if (48 <=? n) && (n <=? 57) then Some (n - 48)
           else if (97 <=? n) && (n <=? 122) then Some (n - 87)
           else if (65 <=? n) && (n <=? 90) then Some (n - 55)
           else None in
  match d with
  | Some v => if v <? radix then Some v else None
  | None => None
  end.

(** The longest prefix of digits, read left to right; [None] when the
    prefix is empty. *)
Fixpoint read_digits (radix : Z) (acc : option Z) (s : string) : option Z :=
  match s with
  | EmptyString => acc
  | String c rest =>
      match digit_value radix c with
      | Some d =>
          read_digits radix
            (Some (match acc with Some a => a * radix + d | None => d end))
            rest
      | None => acc
      end
  end.

Definition strip_hex_prefix (s : string) : option string :=
  match s with
  | String "0" (String "x" rest) => Some rest
  | String "0" (String "X" rest) => Some rest
  | _ => None
  end.

(** The integer a text starts with, after white space: an optional sign,
    an optional hex prefix, and the longest run of digits; [None] when
    there is no digit. *)
Definition integer_text (s : string) : option Z :=
  let s1 := skip_spaces s in
  let '(negative, s2) :=
    match s1 with
    | String "-" rest => (true, rest)
    | String "+" rest => (false, rest)
    | _ => (false, s1)
    end in
  let magnitude :=
    match strip_hex_prefix s2 with
    | Some rest => read_digits 16 None rest
    | None => read_digits 10 None s2
    end in
  option_map (fun m => if negative then - m else m) magnitude.

(** [parseInt(s)] on a string: NaN without a digit, else the double
    nearest to the integer read. *)
Definition parseInt_string (s : string) : JsNumber :=
  match integer_text s with
  | None => NaN
  | Some m => nearest_double m
  end.

(** [parseInt(v)] where [v] is a string or [undefined]: the argument is
    first turned into a string, and "undefined" has no digits. *)
Definition parseInt (v : option string) : JsNumber :=
  match v with
  | Some s => parseInt_string s
  | None => parseInt_string "undefined"
  end.

End Js.
Import Js.

(* ===================================================================== *)
(** ** The mssql client interface                                         *)
(* ===================================================================== *)

Module Sql.

(** The column types the handlers bind their inputs with. *)
Inductive SqlType : Type :=
| Int
| NVarChar
| Decimal (precision scale : Z).

(** One [.input(name, type, value)] of a request. *)
Record SqlParam : Type := mkParam {
  p_name : string;
  p_type : SqlType;
  p_value : JsVal
}.

(** What [.query(text)] submits: the statement text and the inputs bound
    so far, in the order they were bound. *)
Record Statement : Type := mkStatement {
  stmt_text : string;
  stmt_inputs : list SqlParam
}.

(** What a query resolves to.  [recordset] is the first of [recordsets]
    and [rowsAffected] has one count per statement of the batch. *)
Record QueryResult : Type := mkResult {
  recordsets : list (list JsVal);
  rowsAffected : list Z
}.

Definition recordset (r : QueryResult) : Recordset := hd_error (recordsets r).

(** [result.rowsAffected[0] === 0]: false also when the array is empty. *)
Definition first_count_is_zero (r : QueryResult) : bool :=
  match rowsAffected r with
  | n :: _ => n =? 0
  | [] => false
  end.

(** A database client over a store of type [Store]: executing a statement
    moves the store and either resolves to a result or rejects with an
    error, of which the handlers read the message. *)
Class DbClient (Store : Type) : Type := {
  run_query : Store -> Statement -> Store * (QueryResult + string)
}.

End Sql.
Import Sql.

(* ===================================================================== *)
(** ** config/database.js                                                 *)
(* ===================================================================== *)

Module Database.

(** [process.env]: a variable is a string or is not set. *)
Definition Env := string -> option string.

Record Options : Type := mkOptions {
  encrypt : bool;
  trustServerCertificate : bool
}.

(** The [config] object.  [port] is what [parseInt] returns, NaN
    included. *)
Record Config : Type := mkConfig {
  server : option string;
  database : option string;
  user : option string;
  password : option string;
  port : JsNumber;
  options : Options
}.

Definition config (env : Env) : Config :=
  {| server := env "DB_SERVER";
     database := env "DB_DATABASE";
     user := env "DB_USER";
     password := env "DB_PASSWORD";
     port := parseInt (env "DB_PORT");
     options := {| encrypt := false; trustServerCertificate := true |} |}.

(** The connected pool: the handle the handlers call [request()] on. *)
Record Pool : Type := mkPool { pool_config : Config }.

(** [new sql.ConnectionPool(config).connect().then(...).catch(...)].
    [connect] is the outcome of the one connection attempt, which the
    network decides. *)
Definition poolPromise_logged (connect : Config -> Promise Pool) (env : Env)
  : Promise (option Pool) * Console :=
  catch_
    (then_ (connect (config env), [])
           (fun pool => (pool, [("Database connected successfully", None)])))
    (fun err => [("Database connection failed: ", Some err)]).

(** The exported [poolPromise]. *)
Definition poolPromise (connect : Config -> Promise Pool) (env : Env)
  : Promise (option Pool) :=
  fst (poolPromise_logged connect env).

End Database.
Import Database.

(* ===================================================================== *)
(** ** Requests, responses and the handler monad                          *)
(* ===================================================================== *)

Module Http.

(** What [res.send] or [res.json] was given. *)
Inductive Body : Type :=
| Text (s : string)
| Json (v : JsVal).

Record Response : Type := mkResponse {
  status : Z;
  body : Body
}.

(** The part of [req] the handlers read: [req.params.id], a text that
    only the routes with an [:id] segment read, and [req.body]: what
    [express.json()] (app.js) parsed, or [undefined] when it parsed
    nothing and left the property unset. *)
Record Request : Type := mkRequest {
  params_id : string;
  req_body : JsVal
}.

(** What a handler runs against: the store behind the pool, the log of
    statements submitted to it, and the response object: the status code
    set so far and the responses sent. *)
Record World (Store : Type) : Type := mkWorld {
  db : Store;
  issued : list Statement;
  statusCode : Z;
  sent : list Response
}.
Arguments mkWorld {Store} db issued statusCode sent.
Arguments db {Store} w.
Arguments issued {Store} w.
Arguments statusCode {Store} w.
Arguments sent {Store} w.

(** A fresh [res] has status 200 and nothing sent. *)
Definition fresh {Store : Type} (s : Store) : World Store :=
  mkWorld s [] 200 [].

(** A computation either returns a value or throws an error, of which
    only the message is read. *)
Inductive Outcome (A : Type) : Type :=
| Returned (a : A)
| Thrown (message : string).
Arguments Returned {A} a.
Arguments Thrown {A} message.

Definition M (Store A : Type) : Type := World Store -> Outcome A * World Store.

Section Monad.
Context {Store : Type}.

Definition ret {A : Type} (a : A) : M Store A := fun w => (Returned a, w).

Definition bind {A B : Type} (m : M Store A) (k : A -> M Store B) : M Store B :=
  fun w =>
    match m w with
    | (Returned a, w') => k a w'
    | (Thrown e, w') => (Thrown e, w')
    end.

Definition throw {A : Type} (message : string) : M Store A :=
  fun w => (Thrown message, w).

(** [try { body } catch (err) { handler(err.message) }]. *)
Definition try_catch (body : M Store unit) (handler : string -> M Store unit)
  : M Store unit :=
  fun w =>
    match body w with
    | (Returned tt, w') => (Returned tt, w')
    | (Thrown e, w') => handler e w'
    end.

(** An expression that may throw. *)
Definition eval {A : Type} (r : A + string) : M Store A :=
  match r with
  | inl a => ret a
  | inr e => throw e
  end.

(** [await p]. *)
Definition await {A : Type} (p : Promise A) : M Store A :=
  match p with
  | Fulfilled a => ret a
  | Rejected e => throw e
  end.

(** [res.status(code)]. *)
Definition res_status (code : Z) : M Store unit :=
  fun w => (Returned tt, mkWorld (db w) (issued w) code (sent w)).

(** [res.send(text)] and [res.json(value)]: the response goes out with the
    status code set so far. *)
Definition res_send (text : string) : M Store unit :=
  fun w => (Returned tt,
            mkWorld (db w) (issued w) (statusCode w)
                    (sent w ++ [mkResponse (statusCode w) (Text text)])%list).

Definition res_json (v : JsVal) : M Store unit :=
  fun w => (Returned tt,
            mkWorld (db w) (issued w) (statusCode w)
                    (sent w ++ [mkResponse (statusCode w) (Json v)])%list).

(** [pool.request()]: a request with no inputs; a TypeError when [pool] is
    [undefined]. *)
Definition pool_request (pool : option Pool) : M Store (list SqlParam) :=
  match pool with
  | Some _ => ret []
  | None => throw (cannot_read "undefined" "request")
  end.

(** [request.input(name, type, value)]. *)
Definition input (name : string) (type : SqlType) (value : JsVal)
           (request : list SqlParam) : list SqlParam :=
  (request ++ [mkParam name type value])%list.

(** [await request.query(text)]: the statement is submitted once; a
    rejection is thrown at the [await]. *)
Definition query {client : DbClient Store} (request : list SqlParam)
           (text : string) : M Store QueryResult :=
  fun w =>
    let stmt := mkStatement text request in
    let (store', answer) := run_query (db w) stmt in
    let w' := mkWorld store' (issued w ++ [stmt])%list (statusCode w) (sent w) in
    match answer with
    | inl result => (Returned result, w')
    | inr message => (Thrown message, w')
    end.

End Monad.

Declare Scope handler_scope.
Delimit Scope handler_scope with handler.
Notation "x <- m ;; k" := (bind m (fun x => k))
  (at level 61, m at next level, right associativity) : handler_scope.
Notation "m ;; k" := (bind m (fun _ => k))
  (at level 61, right associativity) : handler_scope.
(** Method chaining: [request |> input ...] is [request.input(...)]. *)
Notation "x |> f" := (f x)
  (at level 59, left associativity, only parsing) : handler_scope.

End Http.
Import Http.

(* ===================================================================== *)
(** ** database/routes/products.js                                        *)
(* ===================================================================== *)

Module Products.

Section Handlers.
Context {Store : Type} {client : DbClient Store}.
Variable poolPromise : Promise (option Pool).

Local Open Scope handler_scope.

(** [router.get('/')] *)
Definition get_all (req : Request) : M Store unit :=
  try_catch
    (pool <- await poolPromise ;;
     request <- pool_request pool ;;
     result <- query request
       "SELECT id, name, price,qty, description FROM Products ORDER BY id ASC" ;;
     res_json (recordset_value (recordset result)))
    (fun message => res_status 500 ;; res_send message).

(** [router.get('/:id')] *)
Definition get_by_id (req : Request) : M Store unit :=
  try_catch
    (pool <- await poolPromise ;;
     request <- pool_request pool ;;
     result <- query (request |> input "id" Int (JStr (params_id req)))
       "SELECT * FROM Products WHERE id = @id" ;;
     empty <- eval (recordset_is_empty (recordset result)) ;;
     if (empty : bool) then
       res_status 404 ;; res_send "Product not found"
     else
       row <- eval (recordset_first (recordset result)) ;;
       res_json row)
    (fun message => res_status 500 ;; res_send message).

(** [router.post('/')] *)
Definition post (req : Request) : M Store unit :=
  try_catch
    (body <- eval (destructure "name" "req.body" (req_body req)) ;;
     let name := get_field "name" body in
     let price := get_field "price" body in
     let description := get_field "description" body in
     let qty := get_field "qty" body in
     if negb (truthy name) || negb (truthy price) || negb (truthy qty) then
       res_status 400 ;; res_send "Name and price are required"
     else
       pool <- await poolPromise ;;
       request <- pool_request pool ;;
       result <- query
         (request
            |> input "name" NVarChar name
            |> input "price" (Decimal 10 2) price
            |> input "qty" Int qty
            |> input "description" NVarChar (js_or description (JStr EmptyString)))
         "INSERT INTO Products (name, price, description,qty) VALUES (@name, @price, @description,@qty); SELECT SCOPE_IDENTITY() as id" ;;
       res_status 201 ;;
       first <- eval (recordset_first (recordset result)) ;;
       id <- eval (member first "id") ;;
       res_json (JObj [("message", JStr "Product created successfully");
                       ("id", id)]))
    (fun message => res_status 500 ;; res_send message).

(** [router.put('/:id')] *)
Definition put (req : Request) : M Store unit :=
  try_catch
    (body <- eval (destructure "name" "req.body" (req_body req)) ;;
     let name := get_field "name" body in
     let price := get_field "price" body in
     let description := get_field "description" body in
     let qty := get_field "qty" body in
     let productId := params_id req in
     if negb (truthy name) || negb (truthy price) || negb (truthy qty) then
       res_status 400 ;; res_send "Name and price are required"
     else
       pool <- await poolPromise ;;
       request <- pool_request pool ;;
       result <- query
         (request
            |> input "id" Int (JStr productId)
            |> input "name" NVarChar name
            |> input "price" (Decimal 10 2) price
            |> input "qty" Int qty
            |> input "description" NVarChar (js_or description (JStr EmptyString)))
         "UPDATE Products SET name = @name, price = @price, description = @description,qty=@qty WHERE id = @id" ;;
       if first_count_is_zero result then
         res_status 404 ;; res_send "Product not found"
       else
         res_send "Product updated successfully")
    (fun message => res_status 500 ;; res_send message).

(** [router.delete('/:id')] *)
Definition delete (req : Request) : M Store unit :=
  try_catch
    (pool <- await poolPromise ;;
     request <- pool_request pool ;;
     result <- query (request |> input "id" Int (JStr (params_id req)))
       "DELETE FROM Products WHERE id = @id" ;;
     if first_count_is_zero result then
       res_status 404 ;; res_send "Product not found"
     else
       res_send "Product deleted successfully")
    (fun message => res_status 500 ;; res_send message).

(** The five routes of the router. *)
Inductive Route : Type :=
| GET_all
| GET_by_id
| POST
| PUT
| DELETE.

Definition handler (r : Route) : Request -> M Store unit :=
  match r with
  | GET_all => get_all
  | GET_by_id => get_by_id
  | POST => post
  | PUT => put
  | DELETE => delete
  end.

(** Serving one request on a fresh [res] against the store [s]. *)
Definition serve (r : Route) (req : Request) (s : Store) : World Store :=
  snd (handler r req (fresh s)).

End Handlers.

End Products.
Import Products.

(* ===================================================================== *)
(** ** A reference store                                                  *)
(* ===================================================================== *)

Module RefStore.

(** The store is outside the repository: every definition of this module
    is modelled from the specification's data model and query shapes and
    from the SQL types the handlers declare for their inputs. *)

(** Modelled from the spec: the [Products] table and the SQL Server
    behind the pool are not part of the repository.  A row has the five
    columns of the data model: [id] store-assigned, [name] and
    [description] text, [price] a decimal with two digits after the point
    (kept in hundredths), [qty] an integer. *)
Record ProductRow : Type := mkRow {
  row_id : Z;
  row_name : string;
  row_price : Z;
  row_qty : Z;
  row_description : string
}.

(** Modelled from the spec: the stored table, its rows in no particular
    order, and the next value of the identity column. *)
Record Table : Type := mkTable {
  rows : list ProductRow;
  next_identity : Z
}.

(** Modelled from the spec: the table before any insert; the first
    generated id is 1. *)
Definition empty_table : Table := mkTable [] 1.

(** Modelled from the spec: a row as the driver hands it to JavaScript,
    the columns in the order id, name, price, qty, description. *)
Definition row_value (r : ProductRow) : JsVal :=
  JObj [("id", JNum (inject_Z (row_id r)));
        ("name", JStr (row_name r));
        ("price", JNum (Qred (row_price r # 100)));
        ("qty", JNum (inject_Z (row_qty r)));
        ("description", JStr (row_description r))].

(** *** Binding an input to its declared type *)

(** Modelled from the spec: the value of a bound input inside the store. *)
Inductive SqlValue : Type :=
| VNull
| VInt (n : Z)
| VDec (unscaled : Z)
| VText (s : string).

(** Modelled from the spec: the range of the INT type. *)
Definition int_min : Z := -2147483648.
Definition int_max : Z := 2147483647.

(** Modelled from the spec: the decimal rendering of an integer, as a
    client writes an id into the path, and the reading of such a literal
    (an optional sign and digits). *)
Definition decimal_string (n : Z) : string :=
  NilZero.string_of_int (Z.to_int n).

Definition integer_literal (s : string) : option Z :=
  match NilZero.int_of_string s with
  | Some d => Some (Z.of_int d)
  | None =>
      match s with
      | String "+" rest => option_map Z.of_uint (NilZero.uint_of_string rest)
      | _ => None
      end
  end.

(** Modelled from the spec: rounding to the nearest integer, halves away
    from zero, as a decimal input is scaled. *)
Definition round_half_away (q : Q) : Z :=
  let n := Qnum q in
  let d := Zpos (Qden q) in
  Z.sgn n * ((2 * Z.abs n + d) / (2 * d)).

(** Modelled from the spec: truncation toward zero, as an INT input is
    made whole. *)
Definition truncate (q : Q) : Z := Z.quot (Qnum q) (Zpos (Qden q)).

(** Modelled from the spec: what the driver makes of an input value for
    its declared type.  Numbers and integer literals are coerced; a value
    the model does not cover (an array, an object, a literal with a
    fraction, an exponent or blanks) is rejected like any other
    non-number. *)
Definition bind_value (t : SqlType) (v : JsVal) : SqlValue + string :=
  match v with
  | JUndefined | JNull => inl VNull
  | _ =>
      match t with
      | Int =>
          let number :=
            match v with
            | JNum q => Some q
            | JStr s => option_map inject_Z (integer_literal s)
            | JBool b => Some (if b then 1%Q else 0%Q)
            | _ => None
            end in
          match number with
          | None => inr "Invalid number."
          | Some q =>
              if Qle_bool (inject_Z int_min) q && Qle_bool q (inject_Z int_max)
              then inl (VInt (truncate q))
              else inr "Value must be between -2147483648 and 2147483647, inclusive."
          end
      | Decimal precision scale =>
          let number :=
            match v with
            | JNum q => Some q
            | JStr s => option_map inject_Z (integer_literal s)
            | _ => None
            end in
          match number with
          | None => inr "Invalid number."
          | Some q =>
              let unscaled := round_half_away (q * inject_Z (10 ^ scale)) in
              if Z.abs unscaled <? 10 ^ precision
              then inl (VDec unscaled)
              else inr "Arithmetic overflow error converting numeric to data type numeric."
          end
      | NVarChar =>
          match v with
          | JStr s => inl (VText s)
          | _ => inr "Invalid string."
          end
      end
  end.

(** Modelled from the spec: the input bound under a name. *)
Fixpoint find_input (name : string) (inputs : list SqlParam) : option SqlParam :=
  match inputs with
  | [] => None
  | p :: rest => if String.eqb (p_name p) name then Some p else find_input name rest
  end.

(** Modelled from the spec: the value of [@name] in a statement. *)
Definition variable (name : string) (inputs : list SqlParam) : SqlValue + string :=
  match find_input name inputs with
  | None => inr ("Must declare the scalar variable @" ++ name ++ ".")
  | Some p => bind_value (p_type p) (p_value p)
  end.

(** *** The five statements *)

(** Modelled from the spec: the test [WHERE id = @id]. *)
Definition matches_id (n : Z) (r : ProductRow) : bool := row_id r =? n.

(** Modelled from the spec: [ORDER BY id ASC], by insertion. *)
Fixpoint insert_by_id (r : ProductRow) (sorted : list ProductRow) : list ProductRow :=
  match sorted with
  | [] => [r]
  | r' :: rest =>
      if row_id r <=? row_id r' then r :: sorted
      else r' :: insert_by_id r rest
  end.

(** Modelled from the spec: the rows in ascending order of id. *)
Fixpoint order_by_id (l : list ProductRow) : list ProductRow :=
  match l with
  | [] => []
  | r :: rest => insert_by_id r (order_by_id rest)
  end.

(** Modelled from the spec:
    [SELECT id, name, price,qty, description FROM Products ORDER BY id ASC] *)
Definition select_all (t : Table) : Table * (QueryResult + string) :=
  let found := order_by_id (rows t) in
  (t, inl (mkResult [map row_value found] [Z.of_nat (List.length found)])).

(** Modelled from the spec: [SELECT * FROM Products WHERE id = @id] *)
Definition select_by_id (inputs : list SqlParam) (t : Table)
  : Table * (QueryResult + string) :=
  match variable "id" inputs with
  | inr e => (t, inr e)
  | inl (VInt n) =>
      let found := filter (matches_id n) (rows t) in
      (t, inl (mkResult [map row_value found] [Z.of_nat (List.length found)]))
  | inl VNull => (t, inl (mkResult [[]] [0]))
  | inl _ => (t, inr "Conversion failed for @id.")
  end.

(** Modelled from the spec: the four column values of an INSERT or
    UPDATE; a NULL or a value of another type than the column's is an
    error. *)
Definition column_values (inputs : list SqlParam)
  : (string * Z * Z * string) + string :=
  match variable "name" inputs, variable "price" inputs,
        variable "qty" inputs, variable "description" inputs with
  | inl (VText name), inl (VDec price), inl (VInt qty), inl (VText description) =>
      inl (name, price, qty, description)
  | inr e, _, _, _ => inr e
  | _, inr e, _, _ => inr e
  | _, _, inr e, _ => inr e
  | _, _, _, inr e => inr e
  | _, _, _, _ => inr "Cannot insert the value NULL into table Products."
  end.

(** Modelled from the spec:
    [INSERT INTO Products (...) VALUES (...); SELECT SCOPE_IDENTITY() as id]:
    the new row takes the next identity value, which the second statement
    of the batch returns. *)
Definition insert (inputs : list SqlParam) (t : Table)
  : Table * (QueryResult + string) :=
  match column_values inputs with
  | inr e => (t, inr e)
  | inl (name, price, qty, description) =>
      let id := next_identity t in
      if id <=? int_max then
        (mkTable (rows t ++ [mkRow id name price qty description]) (id + 1),
         inl (mkResult [[JObj [("id", JNum (inject_Z id))]]] [1; 1]))
      else
        (t, inr "Arithmetic overflow error converting IDENTITY to data type int.")
  end.

(** Modelled from the spec: [UPDATE Products SET ... WHERE id = @id]; the
    four columns of every matching row are replaced together. *)
Definition update (inputs : list SqlParam) (t : Table)
  : Table * (QueryResult + string) :=
  match variable "id" inputs, column_values inputs with
  | inr e, _ => (t, inr e)
  | _, inr e => (t, inr e)
  | inl (VInt n), inl (name, price, qty, description) =>
      let hit := filter (matches_id n) (rows t) in
      (mkTable
         (map (fun r => if matches_id n r
                        then mkRow (row_id r) name price qty description
                        else r) (rows t))
         (next_identity t),
       inl (mkResult [] [Z.of_nat (List.length hit)]))
  | inl VNull, inl _ => (t, inl (mkResult [] [0]))
  | inl _, inl _ => (t, inr "Conversion failed for @id.")
  end.

(** Modelled from the spec: [DELETE FROM Products WHERE id = @id] *)
Definition delete_by_id (inputs : list SqlParam) (t : Table)
  : Table * (QueryResult + string) :=
  match variable "id" inputs with
  | inr e => (t, inr e)
  | inl (VInt n) =>
      let hit := filter (matches_id n) (rows t) in
      (mkTable (filter (fun r => negb (matches_id n r)) (rows t))
               (next_identity t),
       inl (mkResult [] [Z.of_nat (List.length hit)]))
  | inl VNull => (t, inl (mkResult [] [0]))
  | inl _ => (t, inr "Conversion failed for @id.")
  end.

(** Modelled from the spec: the store executes the five statements of the
    handlers, recognised by their text, and rejects any other text. *)
Definition execute (t : Table) (stmt : Statement) : Table * (QueryResult + string) :=
  let text := stmt_text stmt in
  if String.eqb text
       "SELECT id, name, price,qty, description FROM Products ORDER BY id ASC"
  then select_all t
  else if String.eqb text "SELECT * FROM Products WHERE id = @id"
  then select_by_id (stmt_inputs stmt) t
  else if String.eqb text
       "INSERT INTO Products (name, price, description,qty) VALUES (@name, @price, @description,@qty); SELECT SCOPE_IDENTITY() as id"
  then insert (stmt_inputs stmt) t
  else if String.eqb text
       "UPDATE Products SET name = @name, price = @price, description = @description,qty=@qty WHERE id = @id"
  then update (stmt_inputs stmt) t
  else if String.eqb text "DELETE FROM Products WHERE id = @id"
  then delete_by_id (stmt_inputs stmt) t
  else (t, inr "Incorrect syntax.").

(** Modelled from the spec: the pool of the reference store. *)
#[export] Instance client : DbClient Table := {| run_query := execute |}.

(** *** Well-formed tables and valid payloads *)

(** Modelled from the spec: ids are unique and below the next identity
    value, which is positive. *)
Definition well_formed (t : Table) : Prop :=
  NoDup (map row_id (rows t)) /\
  Forall (fun r => row_id r < next_identity t) (rows t) /\
  0 < next_identity t.

(** A number with no fraction. *)
Definition is_integer (q : Q) : bool := Qnum q mod Zpos (Qden q) =? 0.

(** A payload of the Product data model: [name] a non-empty text, [price]
    a non-zero decimal with at most two digits after the point that fits
    DECIMAL(10,2), [qty] a non-zero integer that fits INT, [description]
    a text or left out. *)
Definition valid_payload (b : JsObject) : bool :=
  match get_field "name" b, get_field "price" b, get_field "qty" b with
  | JStr name, JNum price, JNum qty =>
      negb (String.eqb name EmptyString)
      && negb (Qeq_bool price 0)
      && is_integer (price * 100)
      && (Z.abs (Qfloor (price * 100)) <? 10 ^ 10)
      && negb (Qeq_bool qty 0)
      && is_integer qty
      && (int_min <=? Qfloor qty) && (Qfloor qty <=? int_max)
      && match get_field "description" b with
         | JUndefined | JStr _ => true
         | _ => false
         end
  | _, _, _ => false
  end.

End RefStore.
Import RefStore.

(* ===================================================================== *)
(** ** Auxiliary definitions and sample data                              *)
(* ===================================================================== *)

(** The required-field test of [post] and [put]. *)
Definition required_present (b : JsObject) : bool :=
  truthy (get_field "name" b) && truthy (get_field "price" b)
  && truthy (get_field "qty" b).

(** A pool that connected, for concrete runs. *)
Definition connected : Promise (option Pool) :=
  Fulfilled (Some (mkPool (config (fun _ => None)))).

(** Sample bodies and tables. *)
Definition desk_without_qty : JsObject :=
  [("name", JStr "Desk"); ("price", JNum 120)].

Definition free_sticker : JsObject :=
  [("name", JStr "Sticker"); ("price", JNum 0); ("qty", JNum 10)].

Definition laptop : JsObject :=
  [("name", JStr "Laptop"); ("price", JNum 75000); ("qty", JNum 5)].

Definition one_chair : Table := mkTable [mkRow 1 "Chair" 4500 2 "oak"] 2.

Definition shuffled : Table :=
  mkTable [mkRow 3 "Lamp" 1999 4 EmptyString;
           mkRow 1 "Chair" 4500 2 "oak";
           mkRow 2 "Desk" 12000 1 EmptyString] 4.

(** The statement text of each route, as written in its handler. *)
Definition route_sql (r : Route) : string :=
  match r with
  | GET_all =>
      "SELECT id, name, price,qty, description FROM Products ORDER BY id ASC"
  | GET_by_id => "SELECT * FROM Products WHERE id = @id"
  | POST =>
      "INSERT INTO Products (name, price, description,qty) VALUES (@name, @price, @description,@qty); SELECT SCOPE_IDENTITY() as id"
  | PUT =>
      "UPDATE Products SET name = @name, price = @price, description = @description,qty=@qty WHERE id = @id"
  | DELETE => "DELETE FROM Products WHERE id = @id"
  end.

(** The names and types a statement's inputs were bound with: all of a
    statement but its text and the bound values. *)
Definition declared (stmt : Statement) : list (string * SqlType) :=
  map (fun p => (p_name p, p_type p)) (stmt_inputs stmt).

(** The statement of GET /api/products/abc. *)
Definition select_abc : Statement :=
  mkStatement "SELECT * FROM Products WHERE id = @id"
              [mkParam "id" Int (JStr "abc")].

(** The statement each route with an [:id] segment or a body builds from
    its request. *)
Definition select_statement (req : Request) : Statement :=
  mkStatement (route_sql GET_by_id) [mkParam "id" Int (JStr (params_id req))].

Definition delete_statement (req : Request) : Statement :=
  mkStatement (route_sql DELETE) [mkParam "id" Int (JStr (params_id req))].

Definition body_inputs (b : JsObject) : list SqlParam :=
  [mkParam "name" NVarChar (get_field "name" b);
   mkParam "price" (Decimal 10 2) (get_field "price" b);
   mkParam "qty" Int (get_field "qty" b);
   mkParam "description" NVarChar
           (js_or (get_field "description" b) (JStr EmptyString))].

(** The properties of [req.body] that a handler can bind: those of an
    object; none for any other value. *)
Definition body_fields (req : Request) : JsObject :=
  match req_body req with
  | JObj fields => fields
  | _ => []
  end.

Definition insert_statement (req : Request) : Statement :=
  mkStatement (route_sql POST) (body_inputs (body_fields req)).

Definition update_statement (req : Request) : Statement :=
  mkStatement (route_sql PUT)
              (mkParam "id" Int (JStr (params_id req))
                 :: body_inputs (body_fields req)).

(** Ascending order of id. *)
Definition id_le (a b : ProductRow) : Prop := row_id a <= row_id b.

(** The description a handler binds: the body's, or the empty string. *)
Definition bound_description (b : JsObject) : JsVal :=
  js_or (get_field "description" b) (JStr EmptyString).

(** A value of the configuration is supplied by the environment when
    some change of the environment changes it. *)
Definition environment_supplied {A : Type} (field : Config -> A) : Prop :=
  exists env1 env2 : Env, field (config env1) <> field (config env2).

(** Sample environments: nothing set, every variable set to one text, and
    a usual [.env] file. *)
Definition nothing_set : Env := fun _ => None.

Definition all_set_to (value : string) : Env := fun _ => Some value.

Definition dot_env : Env :=
  fun k =>
    if String.eqb k "DB_SERVER" then Some "localhost"
    else if String.eqb k "DB_DATABASE" then Some "shop"
    else if String.eqb k "DB_USER" then Some "sa"
    else if String.eqb k "DB_PASSWORD" then Some "secret"
    else if String.eqb k "DB_PORT" then Some "1433"
    else None.

(** A client whose store reports no counts, as under SET NOCOUNT ON. *)
Definition uncounted : DbClient unit :=
  {| run_query := fun s _ => (s, inl (mkResult [] [])) |}.

(** A connection attempt that is refused. *)
Definition refused : Config -> Promise Pool :=
  fun _ => Rejected "ECONNREFUSED".

(** Two values agree: numbers as numbers, anything else literally. *)
Definition same_value (a b : JsVal) : Prop :=
  match a, b with
  | JNum x, JNum y => Qeq x y
  | _, _ => a = b
  end.

(** A record matches a payload: it has the payload's name, price and qty,
    and the payload's description or, when that is left out, the empty
    string. *)
Definition matches_payload (record payload : JsObject) : Prop :=
  same_value (get_field "name" record) (get_field "name" payload) /\
  same_value (get_field "price" record) (get_field "price" payload) /\
  same_value (get_field "qty" record) (get_field "qty" payload) /\
  same_value (get_field "description" record) (bound_description payload).

(** The body of the 201 response for a generated id. *)
Definition created_body (id : Z) : JsVal :=
  JObj [("message", JStr "Product created successfully");
        ("id", JNum (inject_Z id))].

(** Two PUT requests: a plain one, and one whose path and body carry SQL
    text. *)
Definition plain_put : Request := mkRequest "1" (JObj laptop).

Definition hostile_put : Request :=
  mkRequest "1 OR 1=1"
            (JObj [("name", JStr "x'); DROP TABLE Products;--");
                   ("price", JNum 1); ("qty", JNum 1);
                   ("description", JStr "' OR '1'='1")]).

(** DELETE /api/products/1 and GET /api/products/1. *)
Definition delete_one : Request := mkRequest "1" (JObj []).

Definition get_one : Request := mkRequest "1" (JObj []).

(** GET /api/products. *)
Definition get_list : Request := mkRequest "0" (JObj []).

(** A POST and a PUT for which nothing was parsed: [req.body] is
    [undefined]. *)
Definition post_without_body : Request := mkRequest "0" JUndefined.

Definition put_without_body : Request := mkRequest "1" JUndefined.

(** The statement a route builds from a request. *)
Definition statement_of (r : Route) (req : Request) : Statement :=
  match r with
  | GET_all => mkStatement (route_sql GET_all) []
  | GET_by_id => select_statement req
  | POST => insert_statement req
  | PUT => update_statement req
  | DELETE => delete_statement req
  end.

(** The pool promise is fulfilled with a pool. *)
Definition pool_ready (pp : Promise (option Pool)) : bool :=
  match pp with
  | Fulfilled (Some _) => true
  | _ => false
  end.

(** The request gets past the required-field test, which only POST and
    PUT have. *)
Definition passes_validation (r : Route) (req : Request) : bool :=
  match r with
  | POST | PUT => required_present (body_fields req)
  | _ => true
  end.

(** The request reaches the required-field test and fails it: a POST or
    PUT whose body can be destructured and lacks a truthy name, price or
    qty. *)
Definition fails_validation (r : Route) (req : Request) : bool :=
  match r with
  | POST | PUT =>
      negb (nullish (req_body req)) && negb (required_present (body_fields req))
  | _ => false
  end.

(** The status codes each route can answer with. *)
Definition statuses_of (r : Route) : list Z :=
  match r with
  | GET_all => [200; 500]
  | GET_by_id => [200; 404; 500]
  | POST => [201; 400; 500]
  | PUT => [200; 400; 404; 500]
  | DELETE => [200; 404; 500]
  end.

Definition is_json (b : Body) : bool :=
  match b with
  | Json _ => true
  | Text _ => false
  end.

(** The parts of the request a route reads. *)
Definition reads_id (r : Route) : bool :=
  match r with
  | GET_by_id | PUT | DELETE => true
  | _ => false
  end.

Definition reads_body (r : Route) : bool :=
  match r with
  | POST | PUT => true
  | _ => false
  end.

(** Text that [parseInt] stops at after decimal digits: nothing, or a
    character that is neither a decimal digit nor the [x] of a hex prefix. *)
Definition stops_decimal (rest : string) : Prop :=
  match rest with
  | EmptyString => True
  | String c _ =>
      digit_value 10 c = None /\ c <> "x"%char /\ c <> "X"%char
  end.

(** Text in which [parseInt] finds no number: after the leading white
    space there is nothing, or a character that is no sign and no decimal
    digit. *)
Definition starts_without_number (s : string) : Prop :=
  match skip_spaces s with
  | EmptyString => True
  | String c _ =>
      c <> "-"%char /\ c <> "+"%char /\ digit_value 10 c = None
  end.

(** More sample data. *)
Definition two_rows : Table :=
  mkTable [mkRow 1 "Chair" 4500 2 "oak"; mkRow 2 "Desk" 12000 1 EmptyString] 3.

Definition port_with_comment : Env :=
  fun k => if String.eqb k "DB_PORT" then Some "1433 # default" else None.

(* ===================================================================== *)
(** ** Running the handlers                                               *)
(* ===================================================================== *)

Lemma guard_is_required_present (b : JsObject) :
  negb (truthy (get_field "name" b)) || negb (truthy (get_field "price" b))
  || negb (truthy (get_field "qty" b)) = negb (required_present b).
Proof.
  unfold required_present.
  destruct (truthy (get_field "name" b)), (truthy (get_field "price" b)),
    (truthy (get_field "qty" b)); reflexivity.
Qed.

Ltac run_handler :=
  unfold serve, handler, get_all, get_by_id, post, put, delete,
    try_catch, bind, await, pool_request, query, input, eval, ret, throw,
    res_status, res_send, res_json, fresh; simpl.

Section AnyClient.
Context {Store : Type} {client : DbClient Store}.
Variable pp : Promise (option Pool).

(** A request whose body can be destructured and fails the required-field
    test is answered with 400 before anything else happens. *)
Lemma rejected_before_store (r : Route) (req : Request) (s : Store) :
  r = POST \/ r = PUT ->
  nullish (req_body req) = false ->
  required_present (body_fields req) = false ->
  serve pp r req s =
    mkWorld s [] 400 [mkResponse 400 (Text "Name and price are required")].
Proof.
  destruct req as [path body]. unfold body_fields; cbn [req_body].
  intros [-> | ->] Hbody Hmissing;
    destruct body; try discriminate Hbody; run_handler;
    rewrite ?guard_is_required_present, ?Hmissing; reflexivity.
Qed.

(** A body that has a value for a field is an object. *)
Lemma body_with_a_field_is_not_nullish (req : Request) (k : string) :
  get_field k (body_fields req) <> JUndefined ->
  nullish (req_body req) = false.
Proof.
  destruct req as [path body]. unfold body_fields; cbn [req_body].
  destruct body; simpl; intros H; try reflexivity; now contradiction H.
Qed.

End AnyClient.

(* ===================================================================== *)
(** ** Validation: POST and PUT                                           *)
(* ===================================================================== *)

(** The part of C3 that the code keeps: a POST or PUT whose body was
    parsed (it is not [undefined] or [null]) and lacks one of name, price,
    qty, or holds a falsy value for it, is answered with exactly one
    response, status 400 and the fixed text [Name and price are required];
    no statement is submitted and the store is left as it was.  This holds
    for every client, every store and every state of the pool promise. *)
Theorem missing_required_field_is_400 :
  forall (Store : Type) (client : DbClient Store)
         (pp : Promise (option Pool)) (r : Route) (req : Request) (s : Store),
    r = POST \/ r = PUT ->
    nullish (req_body req) = false ->
    truthy (get_field "name" (body_fields req)) = false \/
    truthy (get_field "price" (body_fields req)) = false \/
    truthy (get_field "qty" (body_fields req)) = false ->
    let w := serve pp r req s in
    sent w = [mkResponse 400 (Text "Name and price are required")] /\
    issued w = [] /\
    db w = s.
Proof.
  intros Store client pp r req s Hroute Hbody Hfalsy w.
  assert (Hmissing : required_present (body_fields req) = false).
  { unfold required_present.
    destruct Hfalsy as [H | [H | H]]; rewrite H;
      rewrite ?andb_false_r; reflexivity. }
  unfold w. rewrite (rejected_before_store pp r req s Hroute Hbody Hmissing).
  repeat split.
Qed.

Lemma missing_required_field_is_400_witness :
  (PUT = POST \/ PUT = PUT) /\
  nullish (req_body (mkRequest "1" (JObj desk_without_qty))) = false /\
  (truthy (get_field "name" desk_without_qty) = false \/
   truthy (get_field "price" desk_without_qty) = false \/
   truthy (get_field "qty" desk_without_qty) = false) /\
  sent (serve connected PUT (mkRequest "1" (JObj desk_without_qty)) one_chair)
    = [mkResponse 400 (Text "Name and price are required")] /\
  issued (serve connected PUT (mkRequest "1" (JObj desk_without_qty)) one_chair)
    = [] /\
  db (serve connected PUT (mkRequest "1" (JObj desk_without_qty)) one_chair)
    = one_chair.
Proof.
  assert (Hroute : PUT = POST \/ PUT = PUT) by (right; reflexivity).
  assert (Hbody : nullish (req_body (mkRequest "1" (JObj desk_without_qty)))
                  = false) by reflexivity.
  assert (Hfalsy :
    truthy (get_field "name" desk_without_qty) = false \/
    truthy (get_field "price" desk_without_qty) = false \/
    truthy (get_field "qty" desk_without_qty) = false)
    by (right; right; reflexivity).
  split; [exact Hroute | split; [exact Hbody | split; [exact Hfalsy |]]].
  exact (missing_required_field_is_400 Table RefStore.client connected PUT
           (mkRequest "1" (JObj desk_without_qty)) one_chair
           Hroute Hbody Hfalsy).
Defined.

(** C3: a POST or PUT for which nothing was parsed has no body to take
    the fields from: [req.body] is [undefined], the destructuring throws
    before the required-field test is reached, and the handler answers 500
    with the TypeError's message instead of 400 with the fixed text.  No
    statement is submitted and the store is left as it was. *)
Theorem request_without_body_is_500 :
  forall (Store : Type) (client : DbClient Store)
         (pp : Promise (option Pool)) (s : Store),
    serve pp POST post_without_body s
      = mkWorld s [] 500
          [mkResponse 500
             (Text "Cannot destructure property 'name' of 'req.body' as it is undefined.")] /\
    serve pp PUT put_without_body s
      = mkWorld s [] 500
          [mkResponse 500
             (Text "Cannot destructure property 'name' of 'req.body' as it is undefined.")].
Proof. intros Store client pp s. split; reflexivity. Qed.

(** C5: a POST or PUT whose body carries the number 0 as price or as qty
    is answered like one that leaves the field out: exactly one response,
    status 400 with the fixed text, no statement submitted and the store
    left as it was. *)
Theorem zero_price_or_qty_is_400 :
  forall (Store : Type) (client : DbClient Store)
         (pp : Promise (option Pool)) (r : Route) (req : Request) (s : Store)
         (zero : Q),
    r = POST \/ r = PUT ->
    Qeq zero 0 ->
    get_field "price" (body_fields req) = JNum zero \/
    get_field "qty" (body_fields req) = JNum zero ->
    let w := serve pp r req s in
    sent w = [mkResponse 400 (Text "Name and price are required")] /\
    issued w = [] /\
    db w = s.
Proof.
  intros Store client pp r req s zero Hroute Hzero Hfield w.
  assert (Hfalsy : truthy (JNum zero) = false).
  { simpl. apply Qeq_bool_iff in Hzero. rewrite Hzero. reflexivity. }
  assert (Hmissing : required_present (body_fields req) = false).
  { unfold required_present.
    destruct Hfield as [H | H]; rewrite H, Hfalsy;
      rewrite ?andb_false_r; reflexivity. }
  assert (Hbody : nullish (req_body req) = false).
  { destruct Hfield as [H | H];
      [apply (body_with_a_field_is_not_nullish req "price")
      | apply (body_with_a_field_is_not_nullish req "qty")];
      rewrite H; discriminate. }
  unfold w. rewrite (rejected_before_store pp r req s Hroute Hbody Hmissing).
  repeat split.
Qed.

Lemma zero_price_or_qty_is_400_witness :
  (POST = POST \/ POST = PUT) /\
  Qeq 0 0 /\
  (get_field "price" free_sticker = JNum 0 \/
   get_field "qty" free_sticker = JNum 0) /\
  sent (serve connected POST (mkRequest "0" (JObj free_sticker)) empty_table)
    = [mkResponse 400 (Text "Name and price are required")] /\
  issued (serve connected POST (mkRequest "0" (JObj free_sticker)) empty_table) = [] /\
  db (serve connected POST (mkRequest "0" (JObj free_sticker)) empty_table) = empty_table.
Proof.
  assert (Hroute : POST = POST \/ POST = PUT) by (left; reflexivity).
  assert (Hzero : Qeq 0 0) by reflexivity.
  assert (Hfield : get_field "price" free_sticker = JNum 0 \/
                   get_field "qty" free_sticker = JNum 0)
    by (left; reflexivity).
  split; [exact Hroute | split; [exact Hzero | split; [exact Hfield |]]].
  exact (zero_price_or_qty_is_400 Table RefStore.client connected POST
           (mkRequest "0" (JObj free_sticker)) empty_table 0 Hroute Hzero Hfield).
Defined.

(* ===================================================================== *)
(** ** Store errors                                                       *)
(* ===================================================================== *)

(** Case analysis on everything a handler branches on before and at its
    one statement. *)
Ltac handler_cases pp r req :=
  destruct req as [?path ?body]; destruct r;
  destruct pp as [[?pool | ] | ?reason]; run_handler;
  unfold body_fields; cbn [req_body params_id];
  try match goal with
      | |- context [destructure _ _ ?b] =>
          destruct b as [ | | ?flag | ?number | ?text | ?elements | ?fields];
          simpl
      end;
  rewrite ?guard_is_required_present;
  try match goal with
      | |- context [required_present ?f] =>
          destruct (required_present f) eqn:?
      end;
  simpl.

Ltac settle_answer :=
  match goal with
  | |- context [run_query ?s ?stmt] =>
      let E := fresh "Eanswer" in
      destruct (run_query s stmt) as [?s' [?result | ?message]] eqn:E; simpl
  end.

Ltac settle_result :=
  repeat match goal with
         | |- context [recordset ?r] =>
             destruct (recordset r) as [[ | ?row ?rows] | ]; simpl
         | |- context [first_count_is_zero ?r] =>
             let E := fresh "Ecount" in
             destruct (first_count_is_zero r) eqn:E; simpl
         | |- context [member ?v ?k] =>
             destruct (member v k) as [?id | ?unreadable]; simpl
         end.

(** Whatever the request, the store and the pool do, a handler sends
    exactly one response and submits at most one statement. *)
Lemma one_response_per_request
      {Store : Type} {client : DbClient Store}
      (pp : Promise (option Pool)) (r : Route) (req : Request) (s : Store) :
  List.length (sent (serve pp r req s)) = 1%nat /\
  (List.length (issued (serve pp r req s)) <= 1)%nat.
Proof.
  handler_cases pp r req; try (split; [reflexivity | auto]);
    settle_answer; settle_result; split; auto.
Qed.

(** C8: when the database client raises an error on the statement a
    handler submitted, the handler sends exactly one response, with status
    500 and the error's message as its body, and submits nothing else: the
    statement log holds that one statement. *)
Theorem store_error_is_single_500 :
  forall (Store : Type) (client : DbClient Store)
         (pp : Promise (option Pool)) (r : Route) (req : Request)
         (s s' : Store) (stmt : Statement) (message : string),
    In stmt (issued (serve pp r req s)) ->
    run_query s stmt = (s', inr message) ->
    serve pp r req s = mkWorld s' [stmt] 500 [mkResponse 500 (Text message)].
Proof.
  intros Store client pp r req s s' stmt message.
  handler_cases pp r req; try (intros []); settle_answer; settle_result;
    intros [<- | []] Hraised; rewrite Hraised in Eanswer;
    inversion Eanswer; subst; reflexivity.
Qed.

Lemma store_error_is_single_500_witness :
  In select_abc (issued (serve connected GET_by_id (mkRequest "abc" (JObj [])) one_chair)) /\
  run_query one_chair select_abc = (one_chair, inr "Invalid number.") /\
  serve connected GET_by_id (mkRequest "abc" (JObj [])) one_chair
    = mkWorld one_chair [select_abc] 500 [mkResponse 500 (Text "Invalid number.")].
Proof.
  assert (Hissued :
    In select_abc
       (issued (serve connected GET_by_id (mkRequest "abc" (JObj [])) one_chair)))
    by (left; reflexivity).
  assert (Hraised :
    run_query one_chair select_abc = (one_chair, inr "Invalid number."))
    by reflexivity.
  split; [exact Hissued | split; [exact Hraised |]].
  exact (store_error_is_single_500 Table RefStore.client connected GET_by_id
           (mkRequest "abc" (JObj [])) one_chair one_chair select_abc
           "Invalid number." Hissued Hraised).
Defined.

(* ===================================================================== *)
(** ** Statement texts                                                    *)
(* ===================================================================== *)

(** Whatever a handler submits is the statement of its route, with the
    inputs bound under fixed names and types. *)
Lemma issued_statement_shape
      {Store : Type} {client : DbClient Store}
      (pp : Promise (option Pool)) (r : Route) (req : Request) (s : Store)
      (stmt : Statement) :
  In stmt (issued (serve pp r req s)) ->
  stmt_text stmt = route_sql r /\
  declared stmt =
    match r with
    | GET_all => []
    | GET_by_id | DELETE => [("id", Int)]
    | POST => [("name", NVarChar); ("price", Decimal 10 2); ("qty", Int);
               ("description", NVarChar)]
    | PUT => [("id", Int); ("name", NVarChar); ("price", Decimal 10 2);
              ("qty", Int); ("description", NVarChar)]
    end.
Proof.
  handler_cases pp r req; try (intros []); settle_answer; settle_result;
    intros [<- | []]; split; reflexivity.
Qed.

(** C2: the text a handler submits to the store does not depend on the
    request.  Two runs of the same route, on any two requests, stores,
    clients and pool states, submit the same statement text, the constant
    of the route, and bind their inputs under the same names and types:
    the request reaches the store in the bound values only. *)
Theorem sql_text_independent_of_request :
  forall (Store1 Store2 : Type)
         (client1 : DbClient Store1) (client2 : DbClient Store2)
         (pp1 pp2 : Promise (option Pool)) (r : Route)
         (req1 req2 : Request) (s1 : Store1) (s2 : Store2)
         (stmt1 stmt2 : Statement),
    In stmt1 (issued (serve pp1 r req1 s1)) ->
    In stmt2 (issued (serve pp2 r req2 s2)) ->
    stmt_text stmt1 = route_sql r /\
    stmt_text stmt2 = stmt_text stmt1 /\
    declared stmt2 = declared stmt1.
Proof.
  intros Store1 Store2 client1 client2 pp1 pp2 r req1 req2 s1 s2 stmt1 stmt2
         Hfirst Hsecond.
  apply issued_statement_shape in Hfirst as [Htext1 Hdecl1].
  apply issued_statement_shape in Hsecond as [Htext2 Hdecl2].
  repeat split; congruence.
Qed.

(* ===================================================================== *)
(** ** The runs of the handlers on a connected pool                       *)
(* ===================================================================== *)

Section Connected.
Context {Store : Type} {client : DbClient Store}.
Variable pool : Pool.
Let pp : Promise (option Pool) := Fulfilled (Some pool).

Lemma get_all_run (req : Request) (s s' : Store) (answer : QueryResult + string) :
  run_query s (mkStatement (route_sql GET_all) []) = (s', answer) ->
  serve pp GET_all req s =
    match answer with
    | inl result =>
        mkWorld s' [mkStatement (route_sql GET_all) []] 200
                [mkResponse 200 (Json (recordset_value (recordset result)))]
    | inr message =>
        mkWorld s' [mkStatement (route_sql GET_all) []] 500
                [mkResponse 500 (Text message)]
    end.
Proof.
  intros Hanswer. run_handler. unfold route_sql in Hanswer.
  rewrite Hanswer. destruct answer; reflexivity.
Qed.

Lemma get_by_id_run (req : Request) (s s' : Store) (answer : QueryResult + string) :
  run_query s (select_statement req) = (s', answer) ->
  serve pp GET_by_id req s =
    match answer with
    | inl result =>
        match recordset result with
        | Some [] =>
            mkWorld s' [select_statement req] 404
                    [mkResponse 404 (Text "Product not found")]
        | Some (row :: _) =>
            mkWorld s' [select_statement req] 200 [mkResponse 200 (Json row)]
        | None =>
            mkWorld s' [select_statement req] 500
                    [mkResponse 500 (Text (cannot_read "undefined" "length"))]
        end
    | inr message =>
        mkWorld s' [select_statement req] 500 [mkResponse 500 (Text message)]
    end.
Proof.
  intros Hanswer. run_handler.
  unfold select_statement, route_sql in Hanswer. rewrite Hanswer.
  destruct answer as [result | message]; simpl; [| reflexivity].
  destruct (recordset result) as [[ | row rest] | ]; reflexivity.
Qed.

Lemma post_run (req : Request) (s s' : Store) (answer : QueryResult + string) :
  required_present (body_fields req) = true ->
  run_query s (insert_statement req) = (s', answer) ->
  serve pp POST req s =
    match answer with
    | inl result =>
        match recordset result with
        | Some (first :: _) =>
            match member first "id" with
            | inl id =>
                mkWorld s' [insert_statement req] 201
                  [mkResponse 201
                     (Json (JObj [("message", JStr "Product created successfully");
                                  ("id", id)]))]
            | inr message =>
                mkWorld s' [insert_statement req] 500
                        [mkResponse 500 (Text message)]
            end
        | Some [] =>
            mkWorld s' [insert_statement req] 500
                    [mkResponse 500 (Text (cannot_read "undefined" "id"))]
        | None =>
            mkWorld s' [insert_statement req] 500
                    [mkResponse 500 (Text (cannot_read "undefined" "0"))]
        end
    | inr message =>
        mkWorld s' [insert_statement req] 500 [mkResponse 500 (Text message)]
    end.
Proof.
  destruct req as [path body]. unfold insert_statement, body_fields.
  cbn [req_body]. intros Hpresent Hanswer.
  destruct body; try discriminate Hpresent. run_handler.
  rewrite guard_is_required_present, Hpresent. simpl.
  unfold body_inputs, route_sql in Hanswer. rewrite Hanswer.
  destruct answer as [result | message]; simpl; [| reflexivity].
  destruct (recordset result) as [[ | first rest] | ]; simpl; try reflexivity.
  destruct (member first "id"); reflexivity.
Qed.

Lemma put_run (req : Request) (s s' : Store) (answer : QueryResult + string) :
  required_present (body_fields req) = true ->
  run_query s (update_statement req) = (s', answer) ->
  serve pp PUT req s =
    match answer with
    | inl result =>
        mkWorld s' [update_statement req]
                (if first_count_is_zero result then 404 else 200)
                [if first_count_is_zero result
                 then mkResponse 404 (Text "Product not found")
                 else mkResponse 200 (Text "Product updated successfully")]
    | inr message =>
        mkWorld s' [update_statement req] 500 [mkResponse 500 (Text message)]
    end.
Proof.
  destruct req as [path body]. unfold update_statement, body_fields.
  cbn [req_body params_id]. intros Hpresent Hanswer.
  destruct body; try discriminate Hpresent. run_handler.
  rewrite guard_is_required_present, Hpresent. simpl.
  unfold body_inputs, route_sql in Hanswer. rewrite Hanswer.
  destruct answer as [result | message]; simpl; [| reflexivity].
  destruct (first_count_is_zero result); reflexivity.
Qed.

Lemma delete_run (req : Request) (s s' : Store) (answer : QueryResult + string) :
  run_query s (delete_statement req) = (s', answer) ->
  serve pp DELETE req s =
    match answer with
    | inl result =>
        mkWorld s' [delete_statement req]
                (if first_count_is_zero result then 404 else 200)
                [if first_count_is_zero result
                 then mkResponse 404 (Text "Product not found")
                 else mkResponse 200 (Text "Product deleted successfully")]
    | inr message =>
        mkWorld s' [delete_statement req] 500 [mkResponse 500 (Text message)]
    end.
Proof.
  intros Hanswer. run_handler.
  unfold delete_statement, route_sql in Hanswer. rewrite Hanswer.
  destruct answer as [result | message]; simpl; [| reflexivity].
  destruct (first_count_is_zero result); reflexivity.
Qed.

End Connected.

(* ===================================================================== *)
(** ** The reference store                                                *)
(* ===================================================================== *)

Section Literals.

(** A client that writes an id into the path and the driver that reads it
    back agree. *)
Lemma integer_literal_decimal_string (n : Z) :
  integer_literal (decimal_string n) = Some n.
Proof.
  unfold integer_literal, decimal_string.
  rewrite NilZero.isi.
  - now rewrite DecimalZ.of_to.
  - destruct n as [ | p | p]; simpl; intros H; inversion H as [Hnil].
    now apply Unsigned.to_uint_nonnil in Hnil.
  - destruct n as [ | p | p]; simpl; intros H; inversion H as [Hnil].
    now apply Unsigned.to_uint_nonnil in Hnil.
Qed.

Lemma truncate_integer (n : Z) : truncate (inject_Z n) = n.
Proof. unfold truncate; simpl. apply Z.quot_1_r. Qed.

Lemma in_int_range (n : Z) :
  int_min <= n <= int_max ->
  Qle_bool (inject_Z int_min) (inject_Z n)
  && Qle_bool (inject_Z n) (inject_Z int_max) = true.
Proof.
  intros [Hlow Hhigh]. unfold Qle_bool; simpl.
  rewrite !Z.mul_1_r. apply andb_true_intro; split; now apply Z.leb_le.
Qed.

(** A path that is an integer literal within INT binds to that integer. *)
Lemma bind_path_id (path : string) (id : Z) :
  integer_literal path = Some id ->
  int_min <= id <= int_max ->
  bind_value Int (JStr path) = inl (VInt id).
Proof.
  intros Hliteral Hrange. unfold bind_value.
  rewrite Hliteral; simpl option_map; cbv iota.
  rewrite (in_int_range id Hrange), truncate_integer. reflexivity.
Qed.

End Literals.

Section Ordering.

Lemma insert_by_id_permutation (r : ProductRow) (l : list ProductRow) :
  Permutation (r :: l) (insert_by_id r l).
Proof.
  induction l as [ | r' rest IH]; simpl.
  - apply Permutation_refl.
  - destruct (row_id r <=? row_id r').
    + apply Permutation_refl.
    + eapply perm_trans; [apply perm_swap | apply perm_skip, IH].
Qed.

Lemma order_by_id_permutation (l : list ProductRow) :
  Permutation (order_by_id l) l.
Proof.
  induction l as [ | r rest IH]; simpl.
  - apply perm_nil.
  - apply Permutation_sym.
    eapply perm_trans; [| apply insert_by_id_permutation].
    apply perm_skip, Permutation_sym, IH.
Qed.

Lemma insert_by_id_head (r x : ProductRow) (l : list ProductRow) :
  id_le x r -> HdRel id_le x l -> HdRel id_le x (insert_by_id r l).
Proof.
  intros Hxr Hhead. destruct l as [ | r' rest]; simpl.
  - now constructor.
  - destruct (row_id r <=? row_id r'); constructor;
      [assumption | now inversion Hhead].
Qed.

Lemma insert_by_id_sorted (r : ProductRow) (l : list ProductRow) :
  Sorted id_le l -> Sorted id_le (insert_by_id r l).
Proof.
  induction 1 as [ | r' rest Hsorted IH Hhead]; simpl.
  - repeat constructor.
  - destruct (row_id r <=? row_id r') eqn:Hcmp.
    + apply Z.leb_le in Hcmp. repeat constructor; assumption.
    + apply Z.leb_gt in Hcmp. constructor; [exact IH |].
      apply insert_by_id_head; [unfold id_le; lia | exact Hhead].
Qed.

Lemma order_by_id_sorted (l : list ProductRow) :
  StronglySorted id_le (order_by_id l).
Proof.
  apply Sorted_StronglySorted.
  - intros a b c Hab Hbc. unfold id_le in *. lia.
  - induction l as [ | r rest IH]; simpl;
      [constructor | now apply insert_by_id_sorted].
Qed.

End Ordering.

Section Lookup.

Lemma filter_no_match (id : Z) (l : list ProductRow) :
  (forall row, In row l -> row_id row <> id) ->
  filter (matches_id id) l = [].
Proof.
  induction l as [ | r rest IH]; simpl; intros Hnone; [reflexivity |].
  unfold matches_id at 1.
  destruct (Z.eqb_spec (row_id r) id) as [Heq | _].
  - exfalso. apply (Hnone r); [now left | exact Heq].
  - apply IH. intros row Hin. apply Hnone. now right.
Qed.

Lemma filter_unique (row : ProductRow) (l : list ProductRow) :
  NoDup (map row_id l) ->
  In row l ->
  filter (matches_id (row_id row)) l = [row].
Proof.
  induction l as [ | r rest IH]; simpl; intros Hnodup Hin; [contradiction |].
  inversion Hnodup as [ | ? ? Hfresh Hrest]; subst.
  unfold matches_id at 1.
  destruct Hin as [-> | Hin].
  - rewrite Z.eqb_refl. f_equal. apply filter_no_match.
    intros other Hother Heq. apply Hfresh. rewrite <- Heq.
    now apply in_map.
  - destruct (Z.eqb_spec (row_id r) (row_id row)) as [Heq | _].
    + exfalso. apply Hfresh. rewrite Heq. now apply in_map.
    + now apply IH.
Qed.

Lemma update_no_match (id : Z) (replacement : ProductRow -> ProductRow)
      (l : list ProductRow) :
  (forall row, In row l -> row_id row <> id) ->
  map (fun r => if matches_id id r then replacement r else r) l = l.
Proof.
  induction l as [ | r rest IH]; simpl; intros Hnone; [reflexivity |].
  unfold matches_id at 1.
  destruct (Z.eqb_spec (row_id r) id) as [Heq | _].
  - exfalso. apply (Hnone r); [now left | exact Heq].
  - f_equal. apply IH. intros row Hin. apply Hnone. now right.
Qed.

End Lookup.

Section Payloads.

Lemma integer_value (q : Q) :
  is_integer q = true -> Qnum q = Qfloor q * Zpos (Qden q).
Proof.
  unfold is_integer. destruct q as [n d]; simpl. intros Hmod.
  apply Z.eqb_eq in Hmod.
  rewrite Z.mul_comm. apply Z.div_exact; [discriminate | exact Hmod].
Qed.

Lemma round_integer (q : Q) :
  is_integer q = true -> round_half_away q = Qfloor q.
Proof.
  intros Hint. pose proof (integer_value q Hint) as Hvalue.
  unfold round_half_away. destruct q as [n d]; cbn [Qnum Qden Qfloor] in *.
  set (k := (n / Zpos d)) in *. rewrite Hvalue.
  assert (Hd : 0 < Zpos d) by reflexivity.
  rewrite Z.abs_mul, (Z.abs_eq (Zpos d)) by lia.
  replace (2 * (Z.abs k * Zpos d) + Zpos d)
    with (Z.abs k * (2 * Zpos d) + Zpos d) by ring.
  rewrite Z.div_add_l by lia.
  rewrite (Z.div_small (Zpos d)) by lia.
  rewrite Z.add_0_r, Z.sgn_mul.
  replace (Z.sgn (Zpos d)) with 1 by reflexivity.
  rewrite Z.mul_1_r, Z.mul_comm. apply Z.abs_sgn.
Qed.

Lemma truncate_integer_value (q : Q) :
  is_integer q = true -> truncate q = Qfloor q.
Proof.
  intros Hint. pose proof (integer_value q Hint) as Hvalue.
  unfold truncate. destruct q as [n d]; cbn [Qnum Qden Qfloor] in *.
  rewrite Hvalue at 1. apply Z.quot_mul. discriminate.
Qed.

Lemma integer_is_its_floor (q : Q) :
  is_integer q = true -> Qeq (inject_Z (Qfloor q)) q.
Proof.
  intros Hint. pose proof (integer_value q Hint) as Hvalue.
  unfold Qeq, inject_Z; cbn [Qnum Qden]. lia.
Qed.

Lemma hundredths_of_price (price : Q) :
  is_integer (price * 100) = true ->
  Qeq (Qred (Qfloor (price * 100) # 100)) price.
Proof.
  intros Hint. rewrite Qred_correct.
  pose proof (integer_value _ Hint) as Hvalue.
  destruct price as [n d]. unfold Qeq, Qmult in *; cbn [Qnum Qden Qfloor] in *.
  rewrite Pos.mul_1_r in *. symmetry. exact Hvalue.
Qed.

Lemma bind_price (price : Q) :
  is_integer (price * 100) = true ->
  Z.abs (Qfloor (price * 100)) < 10 ^ 10 ->
  bind_value (Decimal 10 2) (JNum price) = inl (VDec (Qfloor (price * 100))).
Proof.
  intros Hint Hfits. unfold bind_value.
  change (inject_Z (10 ^ 2)) with 100%Q.
  rewrite (round_integer _ Hint).
  apply Z.ltb_lt in Hfits. rewrite Hfits. reflexivity.
Qed.

Lemma bind_qty (qty : Q) :
  is_integer qty = true ->
  int_min <= Qfloor qty <= int_max ->
  bind_value Int (JNum qty) = inl (VInt (Qfloor qty)).
Proof.
  intros Hint [Hlow Hhigh]. unfold bind_value.
  pose proof (integer_is_its_floor qty Hint) as Hfloor.
  assert (Hin : Qle_bool (inject_Z int_min) qty
                && Qle_bool qty (inject_Z int_max) = true).
  { apply andb_true_intro; split; apply Qle_bool_iff; rewrite <- Hfloor;
      rewrite <- Zle_Qle; assumption. }
  rewrite Hin, (truncate_integer_value qty Hint). reflexivity.
Qed.

(** What a valid payload binds and what the store makes of it. *)
Lemma valid_payload_columns (b : JsObject) :
  valid_payload b = true ->
  exists (name : string) (price qty : Q) (description : string),
    get_field "name" b = JStr name /\
    get_field "price" b = JNum price /\
    get_field "qty" b = JNum qty /\
    bound_description b = JStr description /\
    is_integer (price * 100) = true /\
    is_integer qty = true /\
    required_present b = true /\
    column_values (body_inputs b)
      = inl (name, Qfloor (price * 100), Qfloor qty, description).
Proof.
  unfold valid_payload, required_present, body_inputs, bound_description.
  destruct (get_field "name" b) as [ | | | | name | | ]; try discriminate.
  destruct (get_field "price" b) as [ | | | price | | | ]; try discriminate.
  destruct (get_field "qty" b) as [ | | | qty | | | ]; try discriminate.
  intros Hvalid.
  repeat (apply andb_prop in Hvalid; destruct Hvalid as [Hvalid ?]).
  assert (Hdescription : exists description,
             js_or (get_field "description" b) (JStr EmptyString)
             = JStr description).
  { destruct (get_field "description" b) as [ | | | | d | | ];
      try discriminate.
    - exists EmptyString. reflexivity.
    - unfold js_or. destruct (truthy (JStr d)); eexists; reflexivity. }
  destruct Hdescription as [description Hdescription].
  exists name, price, qty, description.
  repeat split; try assumption.
  - simpl. rewrite Hvalid. simpl.
    apply andb_true_intro; split; assumption.
  - unfold column_values, variable. simpl find_input.
    cbn [p_type p_value]. rewrite Hdescription.
    rewrite bind_price, bind_qty; try assumption.
    + reflexivity.
    + split; now apply Z.leb_le.
    + now apply Z.ltb_lt.
Qed.

(** The id input of an UPDATE is not one of its column values. *)
Lemma column_values_skip_id (v : JsVal) (inputs : list SqlParam) :
  column_values (mkParam "id" Int v :: inputs) = column_values inputs.
Proof. reflexivity. Qed.

End Payloads.

Section ReferenceRuns.

Lemma reference_select_all (t : Table) :
  run_query t (mkStatement (route_sql GET_all) [])
  = (t, inl (mkResult [map row_value (order_by_id (rows t))]
                      [Z.of_nat (List.length (order_by_id (rows t)))])).
Proof. reflexivity. Qed.

Lemma reference_select (path : string) (id : Z) (body : JsObject) (t : Table) :
  integer_literal path = Some id ->
  int_min <= id <= int_max ->
  run_query t (select_statement (mkRequest path (JObj body)))
  = (t, inl (mkResult [map row_value (filter (matches_id id) (rows t))]
                      [Z.of_nat (List.length (filter (matches_id id) (rows t)))])).
Proof.
  intros Hliteral Hrange.
  change (run_query t (select_statement (mkRequest path (JObj body))))
    with (select_by_id [mkParam "id" Int (JStr path)] t).
  unfold select_by_id.
  change (variable "id" [mkParam "id" Int (JStr path)])
    with (bind_value Int (JStr path)).
  rewrite (bind_path_id path id Hliteral Hrange). reflexivity.
Qed.

Lemma reference_update_no_match
      (path : string) (id : Z) (body : JsObject) (t : Table) :
  valid_payload body = true ->
  integer_literal path = Some id ->
  int_min <= id <= int_max ->
  (forall row, In row (rows t) -> row_id row <> id) ->
  run_query t (update_statement (mkRequest path (JObj body)))
  = (t, inl (mkResult [] [0])).
Proof.
  intros Hvalid Hliteral Hrange Hnone.
  destruct (valid_payload_columns body Hvalid)
    as (name & price & qty & description & _ & _ & _ & _ & _ & _ & _ & Hcolumns).
  change (run_query t (update_statement (mkRequest path (JObj body))))
    with (update (mkParam "id" Int (JStr path) :: body_inputs body) t).
  unfold update.
  change (variable "id" (mkParam "id" Int (JStr path) :: body_inputs body))
    with (bind_value Int (JStr path)).
  rewrite (bind_path_id path id Hliteral Hrange).
  rewrite column_values_skip_id, Hcolumns.
  rewrite (filter_no_match id (rows t) Hnone).
  rewrite (update_no_match id _ (rows t) Hnone).
  destruct t; reflexivity.
Qed.

End ReferenceRuns.

(* ===================================================================== *)
(** ** Reading: GET /api/products and GET /api/products/:id               *)
(* ===================================================================== *)

(** C6: GET /api/products answers 200 with the rows of the store's result
    as a JSON array and 500 with the error text when the query fails, for
    every client; on the reference store the array holds exactly the rows
    of the table, whatever order they are stored in, in ascending order of
    id, and is empty for an empty table. *)
Theorem list_is_sorted_by_id :
  (forall (Store : Type) (client : DbClient Store) (pool : Pool)
          (req : Request) (s s' : Store) (answer : QueryResult + string),
      run_query s (mkStatement (route_sql GET_all) []) = (s', answer) ->
      sent (serve (Fulfilled (Some pool)) GET_all req s) =
        match answer with
        | inl result =>
            [mkResponse 200 (Json (recordset_value (recordset result)))]
        | inr message => [mkResponse 500 (Text message)]
        end) /\
  (forall (pool : Pool) (req : Request) (t : Table),
      exists listed : list ProductRow,
        sent (serve (Fulfilled (Some pool)) GET_all req t)
          = [mkResponse 200 (Json (JArr (map row_value listed)))] /\
        Permutation listed (rows t) /\
        StronglySorted id_le listed /\
        db (serve (Fulfilled (Some pool)) GET_all req t) = t).
Proof.
  split.
  - intros Store client pool req s s' answer Hanswer.
    rewrite (get_all_run pool req s s' answer Hanswer).
    destruct answer; reflexivity.
  - intros pool req t. exists (order_by_id (rows t)).
    rewrite (get_all_run pool req t t _ (reference_select_all t)).
    repeat split.
    + apply order_by_id_permutation.
    + apply order_by_id_sorted.
Qed.

(** C7: GET /api/products/:id, when the store answers its query without
    error, sends 404 with the text [Product not found] if the result holds
    no row and 200 with the first row as JSON otherwise; a query error
    gives 500 with its message.  On the reference store, for a path that
    is an integer within INT: 404 when no row of the table has that id,
    and 200 with the row that has it otherwise. *)
Theorem get_by_id_found_or_404 :
  (forall (Store : Type) (client : DbClient Store) (pool : Pool)
          (req : Request) (s s' : Store) (answer : QueryResult + string),
      run_query s (select_statement req) = (s', answer) ->
      (forall result row rest,
          answer = inl result -> recordset result = Some (row :: rest) ->
          sent (serve (Fulfilled (Some pool)) GET_by_id req s)
            = [mkResponse 200 (Json row)]) /\
      (forall result,
          answer = inl result -> recordset result = Some [] ->
          sent (serve (Fulfilled (Some pool)) GET_by_id req s)
            = [mkResponse 404 (Text "Product not found")]) /\
      (forall message,
          answer = inr message ->
          sent (serve (Fulfilled (Some pool)) GET_by_id req s)
            = [mkResponse 500 (Text message)])) /\
  (forall (pool : Pool) (path : string) (id : Z) (body : JsObject) (t : Table),
      well_formed t ->
      integer_literal path = Some id ->
      int_min <= id <= int_max ->
      ((forall row, In row (rows t) -> row_id row <> id) ->
       sent (serve (Fulfilled (Some pool)) GET_by_id (mkRequest path (JObj body)) t)
         = [mkResponse 404 (Text "Product not found")]) /\
      (forall row, In row (rows t) -> row_id row = id ->
       sent (serve (Fulfilled (Some pool)) GET_by_id (mkRequest path (JObj body)) t)
         = [mkResponse 200 (Json (row_value row))])).
Proof.
  split.
  - intros Store client pool req s s' answer Hanswer.
    rewrite (get_by_id_run pool req s s' answer Hanswer).
    repeat split.
    + intros result row rest -> Hrows. rewrite Hrows. reflexivity.
    + intros result -> Hrows. rewrite Hrows. reflexivity.
    + intros message ->. reflexivity.
  - intros pool path id body t [Hunique _] Hliteral Hrange.
    rewrite (get_by_id_run pool _ t t _
               (reference_select path id body t Hliteral Hrange)).
    unfold recordset; cbn [recordsets hd_error].
    split.
    + intros Hnone. rewrite (filter_no_match id (rows t) Hnone). reflexivity.
    + intros row Hin <-. rewrite (filter_unique row (rows t) Hunique Hin).
      reflexivity.
Qed.

(* ===================================================================== *)
(** ** Id-scoped writes: PUT and DELETE                                   *)
(* ===================================================================== *)

(** C4: a PUT or DELETE decides between 404 and success from the count of
    rows its one write statement reports and from nothing else.  With the
    pool there and the required fields present, the handler submits the
    UPDATE or DELETE of its route and no other statement (no read precedes
    it); when the store answers it with a result whose first count is
    [count], the response is 404 with [Product not found] if [count] is
    zero and 200 with the success text if it is not.  On the reference
    store, a PUT with a valid body on an id that no row has is answered
    404 and the table is unchanged. *)
Theorem rows_affected_decide_404 :
  (forall (Store : Type) (client : DbClient Store)
          (pp : Promise (option Pool)) (r : Route) (req : Request)
          (s s' : Store) (result : QueryResult) (count : Z),
      r = PUT \/ r = DELETE ->
      pool_ready pp = true ->
      passes_validation r req = true ->
      run_query s (statement_of r req) = (s', inl result) ->
      hd_error (rowsAffected result) = Some count ->
      issued (serve pp r req s) = [statement_of r req] /\
      stmt_text (statement_of r req) = route_sql r /\
      db (serve pp r req s) = s' /\
      (count = 0 ->
       sent (serve pp r req s) = [mkResponse 404 (Text "Product not found")]) /\
      (count <> 0 ->
       sent (serve pp r req s) =
         [mkResponse 200
            (Text match r with
                  | PUT => "Product updated successfully"
                  | _ => "Product deleted successfully"
                  end)])) /\
  (forall (pool : Pool) (path : string) (id : Z) (body : JsObject) (t : Table),
      valid_payload body = true ->
      integer_literal path = Some id ->
      int_min <= id <= int_max ->
      (forall row, In row (rows t) -> row_id row <> id) ->
      sent (serve (Fulfilled (Some pool)) PUT (mkRequest path (JObj body)) t)
        = [mkResponse 404 (Text "Product not found")] /\
      db (serve (Fulfilled (Some pool)) PUT (mkRequest path (JObj body)) t) = t).
Proof.
  split.
  - intros Store client pp r req s s' result count Hroute Hready Hpasses
           Hanswer Hcount.
    destruct pp as [[pool | ] | reason]; try discriminate Hready.
    assert (Hfirst : first_count_is_zero result = (count =? 0)).
    { unfold first_count_is_zero.
      destruct (rowsAffected result) as [ | n others];
        [discriminate Hcount | now injection Hcount as ->]. }
    destruct Hroute as [-> | ->];
      [rewrite (put_run pool req s s' _ Hpasses Hanswer)
      | rewrite (delete_run pool req s s' _ Hanswer)];
      rewrite Hfirst;
      (destruct (Z.eqb_spec count 0) as [Hzero | Hnonzero];
       repeat split; intros; try reflexivity; contradiction).
  - intros pool path id body t Hvalid Hliteral Hrange Hnone.
    destruct (valid_payload_columns body Hvalid)
      as (_ & _ & _ & _ & _ & _ & _ & _ & _ & _ & Hpresent & _).
    rewrite (put_run pool (mkRequest path (JObj body)) t t _ Hpresent
               (reference_update_no_match path id body t
                  Hvalid Hliteral Hrange Hnone)).
    split; reflexivity.
Qed.

(* ===================================================================== *)
(** ** The connection: config/database.js                                 *)
(* ===================================================================== *)

(** C9, as the claim states it, fails: the transport-security options are
    not supplied by the environment.  No two environments give different
    options; one that sets every variable to [true] and one that sets
    every variable to [false] both get [encrypt = false] and
    [trustServerCertificate = true]. *)
Lemma tls_options_are_not_environment_supplied :
  ~ environment_supplied options /\
  options (config (all_set_to "true")) = mkOptions false true /\
  options (config (all_set_to "false")) = mkOptions false true.
Proof.
  split; [| split; reflexivity].
  intros (env1 & env2 & Hdiffer). apply Hdiffer. reflexivity.
Qed.

(** C9, amended: the server address, database name, user, password and
    port of the configuration come from the environment variables
    DB_SERVER, DB_DATABASE, DB_USER, DB_PASSWORD and DB_PORT (the port
    through [parseInt]), and each of them changes with the environment;
    the transport-security options are fixed in the source, encryption
    off and the server certificate trusted. *)
Theorem config_reads_environment :
  (forall env : Env,
      server (config env) = env "DB_SERVER" /\
      database (config env) = env "DB_DATABASE" /\
      user (config env) = env "DB_USER" /\
      password (config env) = env "DB_PASSWORD" /\
      port (config env) = parseInt (env "DB_PORT") /\
      options (config env) = mkOptions false true) /\
  environment_supplied server /\
  environment_supplied database /\
  environment_supplied user /\
  environment_supplied password /\
  environment_supplied port.
Proof.
  split; [intros env; repeat split |].
  repeat split; exists dot_env, nothing_set; discriminate.
Qed.

(** C10: when the one connection attempt fails, [poolPromise] fulfills
    with [undefined] after logging the error; it never rejects.  So
    [await poolPromise] in a handler returns [undefined] without throwing,
    and every request that reaches [pool.request()] (every GET and DELETE,
    and every POST and PUT that passes the required-field test) is
    answered with exactly one response, status 500 carrying the TypeError
    of reading [request] of [undefined], without any statement being
    submitted. *)
Theorem failed_connection_surfaces_as_500 :
  forall (connect : Config -> Promise Pool) (env : Env) (err : string),
    connect (config env) = Rejected err ->
    poolPromise_logged connect env
      = (Fulfilled None, [("Database connection failed: ", Some err)]) /\
    poolPromise connect env = Fulfilled None /\
    (forall (Store : Type) (w : World Store),
        await (poolPromise connect env) w = (Returned None, w)) /\
    (forall (Store : Type) (client : DbClient Store)
            (r : Route) (req : Request) (s : Store),
        (r = POST \/ r = PUT -> required_present (body_fields req) = true) ->
        serve (poolPromise connect env) r req s
          = mkWorld s [] 500
              [mkResponse 500
                 (Text "Cannot read properties of undefined (reading 'request')")]).
Proof.
  intros connect env err Hfailed.
  assert (Hlogged : poolPromise_logged connect env
            = (Fulfilled None, [("Database connection failed: ", Some err)])).
  { unfold poolPromise_logged. rewrite Hfailed. reflexivity. }
  assert (Hpromise : poolPromise connect env = Fulfilled None).
  { unfold poolPromise. rewrite Hlogged. reflexivity. }
  split; [exact Hlogged | split; [exact Hpromise |]].
  rewrite Hpromise. split; [reflexivity |].
  intros Store client r req s Hpresent. destruct req as [path body].
  destruct r; try (run_handler; reflexivity);
    (assert (Hp := Hpresent (or_introl eq_refl))
     || assert (Hp := Hpresent (or_intror eq_refl)));
    unfold body_fields in Hp; cbn [req_body] in Hp;
    destruct body; try discriminate Hp; run_handler;
    rewrite guard_is_required_present, Hp; reflexivity.
Qed.

Lemma failed_connection_surfaces_as_500_witness :
  refused (config dot_env) = Rejected "ECONNREFUSED" /\
  poolPromise refused dot_env = Fulfilled None /\
  serve (poolPromise refused dot_env) GET_by_id (mkRequest "1" (JObj [])) one_chair
    = mkWorld one_chair [] 500
        [mkResponse 500
           (Text "Cannot read properties of undefined (reading 'request')")].
Proof.
  assert (Hfailed : refused (config dot_env) = Rejected "ECONNREFUSED")
    by reflexivity.
  destruct (failed_connection_surfaces_as_500 refused dot_env "ECONNREFUSED"
              Hfailed) as (_ & Hpromise & _ & Hserve).
  split; [exact Hfailed | split; [exact Hpromise |]].
  apply (Hserve Table RefStore.client GET_by_id (mkRequest "1" (JObj [])) one_chair).
  intros [Hr | Hr]; discriminate Hr.
Defined.

(* ===================================================================== *)
(** ** Creating: POST /api/products, then GET by the returned id          *)
(* ===================================================================== *)

Section Invariant.

Lemma ids_of_filter_nodup (keep : ProductRow -> bool) (l : list ProductRow) :
  NoDup (map row_id l) -> NoDup (map row_id (filter keep l)).
Proof.
  induction l as [ | r rest IH]; simpl; intros Hnodup; [constructor |].
  inversion Hnodup as [ | ? ? Hfresh Hrest]; subst.
  destruct (keep r); simpl; [constructor |]; auto.
  intros Hin. apply Hfresh.
  apply in_map_iff in Hin as (row & Hid & Hrow).
  apply filter_In in Hrow as [Hrow _].
  rewrite <- Hid. now apply in_map.
Qed.

Lemma ids_after_update (id : Z) (replacement : ProductRow -> ProductRow)
      (l : list ProductRow) :
  (forall r, row_id (replacement r) = row_id r) ->
  map row_id (map (fun r => if matches_id id r then replacement r else r) l)
  = map row_id l.
Proof.
  intros Hkeeps. rewrite map_map. apply map_ext.
  intros r. destruct (matches_id id r); [apply Hkeeps | reflexivity].
Qed.

Lemma ids_after_insert (id : Z) (fresh_row : ProductRow) (l : list ProductRow) :
  row_id fresh_row = id ->
  NoDup (map row_id l) ->
  Forall (fun r => row_id r < id) l ->
  NoDup (map row_id (l ++ [fresh_row])).
Proof.
  intros Hid Hnodup Hbelow. rewrite map_app. simpl.
  apply NoDup_app; [exact Hnodup | repeat constructor; intros [] |].
  intros x Hin [<- | []].
  apply in_map_iff in Hin as (row & Hrow & Hin).
  rewrite Forall_forall in Hbelow. specialize (Hbelow row Hin). lia.
Qed.

(** Every statement the store executes keeps the table well formed; the
    empty table is well formed. *)
Lemma execute_keeps_well_formed (t : Table) (stmt : Statement) :
  well_formed t -> well_formed (fst (execute t stmt)).
Proof.
  intros (Hnodup & Hbelow & Hpositive). unfold execute.
  repeat match goal with
         | |- context [String.eqb ?a ?b] => destruct (String.eqb a b)
         end;
    unfold select_all, select_by_id, insert, update, delete_by_id;
    repeat match goal with
           | |- context [variable ?n ?i] =>
               destruct (variable n i) as [[ | ? | ? | ?] | ?]
           | |- context [column_values ?i] =>
               destruct (column_values i) as [[[[? ?] ?] ?] | ?]
           | |- context [?a <=? ?b] => destruct (a <=? b)
           end;
    cbn [fst]; try (repeat split; assumption).
  - (* insert *)
    repeat split; cbn [rows next_identity].
    + now apply (ids_after_insert (next_identity t)).
    + apply Forall_app; split.
      * eapply Forall_impl; [| exact Hbelow]. cbv beta. intros; lia.
      * repeat constructor; cbn [row_id]; lia.
    + lia.
  - (* update *)
    repeat split; cbn [rows next_identity]; try assumption.
    + rewrite ids_after_update; [assumption | reflexivity].
    + rewrite Forall_map. eapply Forall_impl; [| exact Hbelow].
      cbv beta. intros r Hr. destruct (matches_id _ r); exact Hr.
  - (* delete *)
    repeat split; cbn [rows next_identity]; try assumption.
    + now apply ids_of_filter_nodup.
    + rewrite Forall_forall in *. intros r Hr.
      apply filter_In in Hr as [Hr _]. now apply Hbelow.
Qed.

Lemma empty_table_well_formed : well_formed empty_table.
Proof. unfold well_formed; simpl. repeat split; constructor. Qed.

End Invariant.

Section RoundTrip.

(** The INSERT of a valid payload on the reference store. *)
Lemma reference_insert (path : string) (payload : JsObject) (t : Table)
      (name description : string) (price qty : Z) :
  column_values (body_inputs payload) = inl (name, price, qty, description) ->
  next_identity t <= int_max ->
  run_query t (insert_statement (mkRequest path (JObj payload)))
  = (mkTable (rows t ++ [mkRow (next_identity t) name price qty description])
             (next_identity t + 1),
     inl (mkResult [[JObj [("id", JNum (inject_Z (next_identity t)))]]] [1; 1])).
Proof.
  intros Hcolumns Hroom.
  change (run_query t (insert_statement (mkRequest path (JObj payload))))
    with (insert (body_inputs payload) t).
  unfold insert. rewrite Hcolumns.
  apply Z.leb_le in Hroom. rewrite Hroom. reflexivity.
Qed.

(** The new row is the only one with its id. *)
Lemma filter_fresh_row (id : Z) (fresh_row : ProductRow) (l : list ProductRow) :
  row_id fresh_row = id ->
  Forall (fun r => row_id r < id) l ->
  filter (matches_id id) (l ++ [fresh_row]) = [fresh_row].
Proof.
  intros Hid Hbelow. rewrite filter_app, filter_no_match.
  - simpl. unfold matches_id. rewrite Hid, Z.eqb_refl. reflexivity.
  - rewrite Forall_forall in Hbelow. intros row Hin.
    specialize (Hbelow row Hin). lia.
Qed.

End RoundTrip.

(** C1: on the reference store, in a well-formed table whose identity
    column has a value left, a POST of a valid payload is answered 201
    with the message [Product created successfully] and the id the store
    generated, and a GET of that id straight after is answered 200 with a
    record that carries that id and matches the payload; its description
    is the empty string when the payload has none. *)
Theorem post_then_get_round_trip :
  forall (pool : Pool) (payload other : JsObject) (path : string) (t : Table),
    well_formed t ->
    next_identity t <= int_max ->
    valid_payload payload = true ->
    sent (serve (Fulfilled (Some pool)) POST (mkRequest path (JObj payload)) t)
      = [mkResponse 201 (Json (created_body (next_identity t)))] /\
    exists record : JsObject,
      sent (serve (Fulfilled (Some pool)) GET_by_id
              (mkRequest (decimal_string (next_identity t)) (JObj other))
              (db (serve (Fulfilled (Some pool)) POST (mkRequest path (JObj payload)) t)))
        = [mkResponse 200 (Json (JObj record))] /\
      get_field "id" record = JNum (inject_Z (next_identity t)) /\
      matches_payload record payload /\
      (get_field "description" payload = JUndefined ->
       get_field "description" record = JStr EmptyString).
Proof.
  intros pool payload other path t (Hnodup & Hbelow & Hpositive) Hroom Hvalid.
  destruct (valid_payload_columns payload Hvalid)
    as (name & price & qty & description & Hname & Hprice & Hqty
        & Hdescription & Hcents & Hwhole & Hpresent & Hcolumns).
  pose proof (reference_insert path payload t _ _ _ _ Hcolumns Hroom) as Hinsert.
  rewrite (post_run pool (mkRequest path (JObj payload)) t _ _ Hpresent Hinsert).
  unfold recordset; cbn [recordsets hd_error member get_field String.eqb
                         Ascii.eqb Bool.eqb andb sent db].
  split; [reflexivity |].
  set (fresh_row := mkRow (next_identity t) name (Qfloor (price * 100))
                          (Qfloor qty) description).
  assert (Hrange : int_min <= next_identity t <= int_max)
    by (unfold int_min; lia).
  pose proof (reference_select (decimal_string (next_identity t))
                (next_identity t) other
                (mkTable (rows t ++ [fresh_row]) (next_identity t + 1))
                (integer_literal_decimal_string _) Hrange) as Hselect.
  cbn [rows] in Hselect.
  rewrite (filter_fresh_row (next_identity t) fresh_row (rows t)
             eq_refl Hbelow) in Hselect.
  rewrite (get_by_id_run pool _ _ _ _ Hselect).
  unfold recordset; cbn [recordsets hd_error map sent].
  eexists. split; [reflexivity |].
  unfold matches_payload, same_value.
  rewrite Hname, Hprice, Hqty, Hdescription.
  cbn [get_field String.eqb Ascii.eqb Bool.eqb andb fresh_row row_id row_name
       row_price row_qty row_description].
  repeat split.
  - now apply hundredths_of_price.
  - now apply integer_is_its_floor.
  - intros Habsent. unfold bound_description in Hdescription.
    rewrite Habsent in Hdescription. unfold js_or in Hdescription.
    simpl in Hdescription. now rewrite Hdescription.
Qed.

Lemma post_then_get_round_trip_witness :
  well_formed empty_table /\
  next_identity empty_table <= int_max /\
  valid_payload laptop = true /\
  sent (serve connected POST (mkRequest "0" (JObj laptop)) empty_table)
    = [mkResponse 201 (Json (created_body 1))] /\
  exists record : JsObject,
    sent (serve connected GET_by_id (mkRequest (decimal_string 1) (JObj []))
            (db (serve connected POST (mkRequest "0" (JObj laptop)) empty_table)))
      = [mkResponse 200 (Json (JObj record))] /\
    get_field "id" record = JNum 1 /\
    matches_payload record laptop /\
    (get_field "description" laptop = JUndefined ->
     get_field "description" record = JStr EmptyString).
Proof.
  assert (Hroom : next_identity empty_table <= int_max)
    by (unfold int_max; simpl; lia).
  assert (Hvalid : valid_payload laptop = true) by reflexivity.
  split; [exact empty_table_well_formed |].
  split; [exact Hroom | split; [exact Hvalid |]].
  exact (post_then_get_round_trip (mkPool (config nothing_set)) laptop []
           "0" empty_table empty_table_well_formed Hroom Hvalid).
Defined.

(** The scenario of the specification: on an empty store a POST of the
    laptop is answered 201 with id 1, and GET /api/products/1 then returns
    the laptop with an empty description. *)
Example laptop_scenario :
  sent (serve connected POST (mkRequest "0" (JObj laptop)) empty_table)
    = [mkResponse 201
         (Json (JObj [("message", JStr "Product created successfully");
                      ("id", JNum 1)]))] /\
  sent (serve connected GET_by_id (mkRequest "1" (JObj []))
          (db (serve connected POST (mkRequest "0" (JObj laptop)) empty_table)))
    = [mkResponse 200
         (Json (JObj [("id", JNum 1); ("name", JStr "Laptop");
                      ("price", JNum 75000); ("qty", JNum 5);
                      ("description", JStr EmptyString)]))].
Proof. split; reflexivity. Qed.

(* ===================================================================== *)
(** ** Concrete runs                                                      *)
(* ===================================================================== *)

Lemma sql_text_independent_of_request_witness :
  In (update_statement plain_put) (issued (serve connected PUT plain_put one_chair)) /\
  In (update_statement hostile_put)
     (issued (serve connected PUT hostile_put empty_table)) /\
  stmt_text (update_statement plain_put) = route_sql PUT /\
  stmt_text (update_statement hostile_put) = stmt_text (update_statement plain_put) /\
  declared (update_statement hostile_put) = declared (update_statement plain_put).
Proof.
  assert (Hplain : In (update_statement plain_put)
                      (issued (serve connected PUT plain_put one_chair)))
    by (left; reflexivity).
  assert (Hhostile : In (update_statement hostile_put)
                        (issued (serve connected PUT hostile_put empty_table)))
    by (left; reflexivity).
  split; [exact Hplain | split; [exact Hhostile |]].
  exact (sql_text_independent_of_request Table Table RefStore.client
           RefStore.client connected connected PUT plain_put hostile_put
           one_chair empty_table _ _ Hplain Hhostile).
Defined.

Lemma rows_affected_decide_404_witness :
  (PUT = PUT \/ PUT = DELETE) /\
  pool_ready connected = true /\
  passes_validation PUT plain_put = true /\
  run_query one_chair (statement_of PUT plain_put)
    = (mkTable [mkRow 1 "Laptop" 7500000 5 EmptyString] 2,
       inl (mkResult [] [1])) /\
  hd_error (rowsAffected (mkResult [] [1])) = Some 1 /\
  issued (serve connected PUT plain_put one_chair)
    = [statement_of PUT plain_put] /\
  stmt_text (statement_of PUT plain_put) = route_sql PUT /\
  db (serve connected PUT plain_put one_chair)
    = mkTable [mkRow 1 "Laptop" 7500000 5 EmptyString] 2 /\
  (1 = 0 ->
   sent (serve connected PUT plain_put one_chair)
     = [mkResponse 404 (Text "Product not found")]) /\
  (1 <> 0 ->
   sent (serve connected PUT plain_put one_chair)
     = [mkResponse 200 (Text "Product updated successfully")]).
Proof.
  assert (Hroute : PUT = PUT \/ PUT = DELETE) by (left; reflexivity).
  assert (Hready : pool_ready connected = true) by reflexivity.
  assert (Hpasses : passes_validation PUT plain_put = true) by reflexivity.
  assert (Hanswer : run_query one_chair (statement_of PUT plain_put)
                    = (mkTable [mkRow 1 "Laptop" 7500000 5 EmptyString] 2,
                       inl (mkResult [] [1])))
    by reflexivity.
  assert (Hcount : hd_error (rowsAffected (mkResult [] [1])) = Some 1)
    by reflexivity.
  split; [exact Hroute | split; [exact Hready | split; [exact Hpasses |]]].
  split; [exact Hanswer | split; [exact Hcount |]].
  exact (proj1 rows_affected_decide_404 Table RefStore.client connected PUT
           plain_put one_chair _ (mkResult [] [1]) 1
           Hroute Hready Hpasses Hanswer Hcount).
Defined.

Lemma list_is_sorted_by_id_witness :
  exists listed : list ProductRow,
    sent (serve connected GET_all get_list shuffled)
      = [mkResponse 200 (Json (JArr (map row_value listed)))] /\
    Permutation listed (rows shuffled) /\
    StronglySorted id_le listed /\
    db (serve connected GET_all get_list shuffled) = shuffled.
Proof.
  exact (proj2 list_is_sorted_by_id (mkPool (config nothing_set)) get_list
           shuffled).
Defined.

Lemma get_by_id_found_or_404_witness :
  well_formed one_chair /\
  integer_literal "1" = Some 1 /\
  int_min <= 1 <= int_max /\
  sent (serve connected GET_by_id get_one one_chair)
    = [mkResponse 200 (Json (row_value (mkRow 1 "Chair" 4500 2 "oak")))].
Proof.
  assert (Hformed : well_formed one_chair).
  { unfold well_formed; simpl. repeat split; repeat constructor.
    intros []. }
  assert (Hliteral : integer_literal "1" = Some 1) by reflexivity.
  assert (Hrange : int_min <= 1 <= int_max)
    by (unfold int_min, int_max; lia).
  split; [exact Hformed | split; [exact Hliteral | split; [exact Hrange |]]].
  apply (proj2 (proj2 get_by_id_found_or_404 (mkPool (config nothing_set))
                  "1" 1 [] one_chair Hformed Hliteral Hrange)).
  - left; reflexivity.
  - reflexivity.
Defined.

(** Rows stored as 3, 1, 2 are listed as 1, 2, 3. *)
Example shuffled_is_listed_in_order :
  sent (serve connected GET_all get_list shuffled)
  = [mkResponse 200
       (Json (JArr [row_value (mkRow 1 "Chair" 4500 2 "oak");
                    row_value (mkRow 2 "Desk" 12000 1 EmptyString);
                    row_value (mkRow 3 "Lamp" 1999 4 EmptyString)]))].
Proof. reflexivity. Qed.

(** The scenario of the specification: PUT /api/products/999 with a valid
    body on an empty store is answered 404 and stores nothing. *)
Example put_999_on_empty_store :
  serve connected PUT (mkRequest "999" (JObj laptop)) empty_table
  = mkWorld empty_table [update_statement (mkRequest "999" (JObj laptop))] 404
            [mkResponse 404 (Text "Product not found")].
Proof. reflexivity. Qed.

(** DELETE of an existing id removes the row: a GET of it is then 404. *)
Example delete_then_get_is_404 :
  sent (serve connected DELETE delete_one one_chair)
    = [mkResponse 200 (Text "Product deleted successfully")] /\
  sent (serve connected GET_by_id get_one
          (db (serve connected DELETE delete_one one_chair)))
    = [mkResponse 404 (Text "Product not found")].
Proof. split; reflexivity. Qed.

(** A price of 0.001 is truthy but is not a price of the data model: it is
    stored as 0.00. *)
Example sub_cent_price_is_rounded :
  valid_payload [("name", JStr "Dust"); ("price", JNum (1 # 1000));
                 ("qty", JNum 1)] = false /\
  rows (db (serve connected POST
              (mkRequest "0"
                 (JObj [("name", JStr "Dust"); ("price", JNum (1 # 1000));
                        ("qty", JNum 1)])) empty_table))
  = [mkRow 1 "Dust" 0 1 EmptyString].
Proof. split; reflexivity. Qed.

(* ===================================================================== *)
(** ** Further properties of the handlers, for every client               *)
(* ===================================================================== *)

Section EveryClient.
Context {Store : Type} {client : DbClient Store}.

(** What a handler submits, and when. *)
Lemma issued_characterised
      (pp : Promise (option Pool)) (r : Route) (req : Request) (s : Store) :
  issued (serve pp r req s) =
    if pool_ready pp && passes_validation r req
    then [statement_of r req] else [].
Proof.
  handler_cases pp r req; try reflexivity;
    settle_answer; settle_result; reflexivity.
Qed.

(** Where a handler leaves the store. *)
Lemma store_characterised
      (pp : Promise (option Pool)) (r : Route) (req : Request) (s : Store) :
  db (serve pp r req s) =
    if pool_ready pp && passes_validation r req
    then fst (run_query s (statement_of r req)) else s.
Proof.
  handler_cases pp r req; try reflexivity;
    unfold select_statement, insert_statement, update_statement,
      delete_statement, body_inputs, route_sql, body_fields;
    cbn [params_id req_body];
    settle_answer; settle_result; reflexivity.
Qed.

Lemma truthy_is_not_nullish (v : JsVal) :
  truthy v = true -> nullish v = false.
Proof. destruct v; simpl; intros H; try reflexivity; discriminate H. Qed.

Lemma bound_description_is_not_nullish (b : JsObject) :
  nullish (js_or (get_field "description" b) (JStr EmptyString)) = false.
Proof.
  unfold js_or. destruct (truthy (get_field "description" b)) eqn:Htruthy.
  - now apply truthy_is_not_nullish.
  - reflexivity.
Qed.

End EveryClient.

(** A handler submits a statement exactly when the pool promise is
    fulfilled with a pool and, for POST and PUT, the three required fields
    are truthy; the statement then binds the path id and the fields of the
    body as they are, whatever their type or range, and the empty string
    for a falsy description. *)
Theorem statement_submitted_iff_ready :
  forall (Store : Type) (client : DbClient Store)
         (pp : Promise (option Pool)) (r : Route) (req : Request) (s : Store),
    issued (serve pp r req s) =
      if pool_ready pp && passes_validation r req
      then [statement_of r req] else [].
Proof. intros. apply issued_characterised. Qed.

(** The store is moved by the one statement and by nothing else: it is
    left where that statement left it, also when the handler then answers
    500, and where it was when no statement was submitted. *)
Theorem store_moves_only_by_the_statement :
  forall (Store : Type) (client : DbClient Store)
         (pp : Promise (option Pool)) (r : Route) (req : Request) (s : Store),
    db (serve pp r req s) =
      if pool_ready pp && passes_validation r req
      then fst (run_query s (statement_of r req)) else s.
Proof. intros. apply store_characterised. Qed.

(** No handler binds [undefined] or [null] to an input, and POST and PUT
    bind truthy values to name, price and qty. *)
Theorem inputs_are_never_null :
  forall (Store : Type) (client : DbClient Store)
         (pp : Promise (option Pool)) (r : Route) (req : Request) (s : Store),
    Forall (fun stmt =>
              Forall (fun p =>
                        nullish (p_value p) = false /\
                        (p_name p = "name" \/ p_name p = "price" \/
                         p_name p = "qty" -> truthy (p_value p) = true))
                     (stmt_inputs stmt))
           (issued (serve pp r req s)).
Proof.
  intros Store client pp r req s. rewrite issued_characterised.
  destruct (pool_ready pp); simpl; [| constructor].
  destruct (passes_validation r req) eqn:Hpasses; constructor; [| constructor].
  assert (Hid : forall path : string,
             nullish (JStr path) = false /\
             ("id" = "name" \/ "id" = "price" \/ "id" = "qty" ->
              truthy (JStr path) = true)).
  { intros path. split; [reflexivity |]. intros [H | [H | H]]; discriminate H. }
  destruct r; simpl in *; repeat constructor; cbn [p_value p_name];
    try apply Hid;
    try (apply andb_prop in Hpasses as [Hpasses Hqty];
         apply andb_prop in Hpasses as [Hname Hprice]);
    try solve [now apply truthy_is_not_nullish
              | apply bound_description_is_not_nullish
              | intros _; assumption
              | intros [H | [H | H]]; discriminate H].
Qed.

(** Each route answers with one of its own status codes only, and a JSON
    body goes out only with the 200 of the two GET routes and the 201 of
    POST: every 400, 404 and 500, and the 200 of PUT and DELETE, is text. *)
Theorem statuses_per_route :
  forall (Store : Type) (client : DbClient Store)
         (pp : Promise (option Pool)) (r : Route) (req : Request) (s : Store),
    Forall (fun resp =>
              In (status resp) (statuses_of r) /\
              (is_json (body resp) = true ->
               (status resp = 200 /\ (r = GET_all \/ r = GET_by_id)) \/
               (status resp = 201 /\ r = POST)))
           (sent (serve pp r req s)).
Proof.
  intros Store client pp r req s.
  handler_cases pp r req; try settle_answer; settle_result;
    (constructor; [| constructor]); simpl;
    (split; [auto 6 | intros H; try discriminate H; auto 6]).
Qed.

(** A handler answers 400 exactly when the request is a POST or PUT whose
    body can be destructured (it is not [undefined] or [null]) and lacks a
    truthy name, price or qty: a 400 never comes from the pool or the
    store, and a request without a body does not get one. *)
Theorem status_400_iff_validation_fails :
  forall (Store : Type) (client : DbClient Store)
         (pp : Promise (option Pool)) (r : Route) (req : Request) (s : Store),
    (exists resp, In resp (sent (serve pp r req s)) /\ status resp = 400) <->
    fails_validation r req = true.
Proof.
  intros Store client pp r req s. split.
  - intros (resp & Hin & Hstatus). revert Hin.
    handler_cases pp r req; try reflexivity;
      try settle_answer; settle_result;
      intros [<- | []]; discriminate Hstatus.
  - intros Hfails.
    assert (Hroute : r = POST \/ r = PUT)
      by (destruct r; try discriminate Hfails; auto).
    assert (Hboth : nullish (req_body req) = false /\
                    required_present (body_fields req) = false).
    { destruct Hroute as [-> | ->]; simpl in Hfails;
        apply andb_prop in Hfails as [Hbody Hmissing];
        apply negb_true_iff in Hbody; apply negb_true_iff in Hmissing;
        split; assumption. }
    destruct Hboth as [Hbody Hmissing].
    rewrite (rejected_before_store pp r req s Hroute Hbody Hmissing).
    eexists. split; [left; reflexivity | reflexivity].
Qed.

(** A 404 is sent only after the store answered the route's statement
    without error and with nothing found: no row for GET by id, a first
    count of zero for PUT and DELETE. *)
Theorem status_404_only_after_empty_answer :
  forall (Store : Type) (client : DbClient Store)
         (pp : Promise (option Pool)) (r : Route) (req : Request) (s : Store)
         (resp : Response),
    In resp (sent (serve pp r req s)) ->
    status resp = 404 ->
    issued (serve pp r req s) = [statement_of r req] /\
    exists (s' : Store) (result : QueryResult),
      run_query s (statement_of r req) = (s', inl result) /\
      match r with
      | GET_by_id => recordset result = Some []
      | PUT | DELETE => exists rest, rowsAffected result = 0 :: rest
      | _ => False
      end.
Proof.
  intros Store client pp r req s resp.
  handler_cases pp r req;
    unfold select_statement, insert_statement, update_statement,
      delete_statement, body_inputs, route_sql, body_fields;
    cbn [params_id req_body];
    try settle_answer;
    repeat match goal with
           | |- context [recordset ?r] =>
               let E := fresh "Erows" in
               destruct (recordset r) as [[ | ?row ?rows] | ] eqn:E; simpl
           | |- context [first_count_is_zero ?r] =>
               let E := fresh "Ecount" in
               destruct (first_count_is_zero r) eqn:E; simpl
           | |- context [member ?v ?k] =>
               destruct (member v k) as [?id | ?unreadable]; simpl
           end;
    intros [<- | []] Hstatus; try discriminate Hstatus;
    (split; [reflexivity |]); do 2 eexists; (split; [reflexivity |]);
    try assumption;
    match goal with
    | Ecount : first_count_is_zero ?answered = true |- _ =>
        unfold first_count_is_zero in Ecount;
        destruct (rowsAffected answered) as [ | n rest];
        try discriminate Ecount;
        apply Z.eqb_eq in Ecount; subst; eexists; reflexivity
    end.
Qed.

(** A 200 or 201 is sent only when the pool is there and the store
    answered the route's statement without error; the store is then where
    that statement left it. *)
Theorem success_only_after_store_answer :
  forall (Store : Type) (client : DbClient Store)
         (pp : Promise (option Pool)) (r : Route) (req : Request) (s : Store)
         (resp : Response),
    In resp (sent (serve pp r req s)) ->
    status resp = 200 \/ status resp = 201 ->
    pool_ready pp = true /\
    exists (s' : Store) (result : QueryResult),
      run_query s (statement_of r req) = (s', inl result) /\
      issued (serve pp r req s) = [statement_of r req] /\
      db (serve pp r req s) = s'.
Proof.
  intros Store client pp r req s resp.
  handler_cases pp r req;
    unfold select_statement, insert_statement, update_statement,
      delete_statement, body_inputs, route_sql, body_fields;
    cbn [params_id req_body];
    try settle_answer; settle_result;
    intros [<- | []] [Hstatus | Hstatus]; try discriminate Hstatus;
    (split; [reflexivity |]); do 2 eexists; repeat split.
Qed.

Lemma status_404_only_after_empty_answer_witness :
  In (mkResponse 404 (Text "Product not found"))
     (sent (serve connected GET_by_id (mkRequest "7" (JObj [])) one_chair)) /\
  status (mkResponse 404 (Text "Product not found")) = 404 /\
  issued (serve connected GET_by_id (mkRequest "7" (JObj [])) one_chair)
    = [statement_of GET_by_id (mkRequest "7" (JObj []))] /\
  exists (s' : Table) (result : QueryResult),
    run_query one_chair (statement_of GET_by_id (mkRequest "7" (JObj [])))
      = (s', inl result) /\
    recordset result = Some [].
Proof.
  assert (Hsent : In (mkResponse 404 (Text "Product not found"))
                     (sent (serve connected GET_by_id (mkRequest "7" (JObj []))
                                  one_chair)))
    by (left; reflexivity).
  assert (Hstatus : status (mkResponse 404 (Text "Product not found")) = 404)
    by reflexivity.
  split; [exact Hsent | split; [exact Hstatus |]].
  exact (status_404_only_after_empty_answer Table RefStore.client connected
           GET_by_id (mkRequest "7" (JObj [])) one_chair _ Hsent Hstatus).
Defined.

Lemma success_only_after_store_answer_witness :
  In (mkResponse 200 (Text "Product deleted successfully"))
     (sent (serve connected DELETE delete_one one_chair)) /\
  (status (mkResponse 200 (Text "Product deleted successfully")) = 200 \/
   status (mkResponse 200 (Text "Product deleted successfully")) = 201) /\
  pool_ready connected = true /\
  exists (s' : Table) (result : QueryResult),
    run_query one_chair (statement_of DELETE delete_one) = (s', inl result) /\
    issued (serve connected DELETE delete_one one_chair)
      = [statement_of DELETE delete_one] /\
    db (serve connected DELETE delete_one one_chair) = s'.
Proof.
  assert (Hsent : In (mkResponse 200 (Text "Product deleted successfully"))
                     (sent (serve connected DELETE delete_one one_chair)))
    by (left; reflexivity).
  assert (Hstatus :
    status (mkResponse 200 (Text "Product deleted successfully")) = 200 \/
    status (mkResponse 200 (Text "Product deleted successfully")) = 201)
    by (left; reflexivity).
  split; [exact Hsent | split; [exact Hstatus |]].
  exact (success_only_after_store_answer Table RefStore.client connected
           DELETE delete_one one_chair _ Hsent Hstatus).
Defined.

(** POST answers 201 exactly when the first row of the result is there and
    is not null, echoing whatever its [id] property is; with no recordset,
    no row or a null row it answers 500 with a TypeError.  Either way the
    INSERT was executed: the store is where the statement left it. *)
Theorem post_answer_depends_on_returned_row :
  forall (Store : Type) (client : DbClient Store) (pool : Pool)
         (req : Request) (s s' : Store) (result : QueryResult),
    required_present (body_fields req) = true ->
    run_query s (insert_statement req) = (s', inl result) ->
    db (serve (Fulfilled (Some pool)) POST req s) = s' /\
    match recordset result with
    | Some (row :: _) =>
        if nullish row then
          exists of_what,
            sent (serve (Fulfilled (Some pool)) POST req s)
              = [mkResponse 500 (Text (cannot_read of_what "id"))]
        else
          exists id,
            member row "id" = inl id /\
            sent (serve (Fulfilled (Some pool)) POST req s)
              = [mkResponse 201
                   (Json (JObj [("message", JStr "Product created successfully");
                                ("id", id)]))]
    | Some [] =>
        sent (serve (Fulfilled (Some pool)) POST req s)
          = [mkResponse 500 (Text (cannot_read "undefined" "id"))]
    | None =>
        sent (serve (Fulfilled (Some pool)) POST req s)
          = [mkResponse 500 (Text (cannot_read "undefined" "0"))]
    end.
Proof.
  intros Store client pool req s s' result Hpresent Hanswer.
  rewrite (post_run pool req s s' _ Hpresent Hanswer).
  destruct (recordset result) as [[ | row rest] | ];
    [split; reflexivity | | split; reflexivity].
  destruct row; simpl; split; try reflexivity; eexists; try split; reflexivity.
Qed.

Lemma post_answer_depends_on_returned_row_witness :
  required_present (body_fields (mkRequest "0" (JObj laptop))) = true /\
  run_query empty_table (insert_statement (mkRequest "0" (JObj laptop)))
    = (mkTable [mkRow 1 "Laptop" 7500000 5 EmptyString] 2,
       inl (mkResult [[JObj [("id", JNum 1)]]] [1; 1])) /\
  db (serve connected POST (mkRequest "0" (JObj laptop)) empty_table)
    = mkTable [mkRow 1 "Laptop" 7500000 5 EmptyString] 2.
Proof.
  assert (Hpresent : required_present (body_fields (mkRequest "0" (JObj laptop))) = true)
    by reflexivity.
  assert (Hanswer :
    run_query empty_table (insert_statement (mkRequest "0" (JObj laptop)))
    = (mkTable [mkRow 1 "Laptop" 7500000 5 EmptyString] 2,
       inl (mkResult [[JObj [("id", JNum 1)]]] [1; 1])))
    by reflexivity.
  split; [exact Hpresent | split; [exact Hanswer |]].
  exact (proj1 (post_answer_depends_on_returned_row Table RefStore.client
                  (mkPool (config nothing_set)) (mkRequest "0" (JObj laptop))
                  empty_table _ _ Hpresent Hanswer)).
Defined.

(** PUT and DELETE compare the first count with zero and nothing else: a
    result that reports no count at all is answered as a success. *)
Theorem write_without_count_is_success :
  forall (Store : Type) (client : DbClient Store) (pool : Pool)
         (r : Route) (req : Request) (s s' : Store) (result : QueryResult),
    r = PUT \/ r = DELETE ->
    passes_validation r req = true ->
    run_query s (statement_of r req) = (s', inl result) ->
    rowsAffected result = [] ->
    sent (serve (Fulfilled (Some pool)) r req s) =
      [mkResponse 200
         (Text match r with
               | PUT => "Product updated successfully"
               | _ => "Product deleted successfully"
               end)].
Proof.
  intros Store client pool r req s s' result [-> | ->] Hpasses Hanswer Hnone.
  - rewrite (put_run pool req s s' _ Hpasses Hanswer).
    unfold first_count_is_zero. rewrite Hnone. reflexivity.
  - rewrite (delete_run pool req s s' _ Hanswer).
    unfold first_count_is_zero. rewrite Hnone. reflexivity.
Qed.

(** A route reads of the request only what its code names: the list route
    nothing, GET by id and DELETE the path id, POST the body, PUT both.
    Two requests that agree on what the route reads get the same run. *)
Theorem unread_request_parts_do_not_matter :
  forall (Store : Type) (client : DbClient Store)
         (pp : Promise (option Pool)) (r : Route) (req1 req2 : Request)
         (s : Store),
    (reads_id r = true -> params_id req1 = params_id req2) ->
    (reads_body r = true -> req_body req1 = req_body req2) ->
    serve pp r req1 s = serve pp r req2 s.
Proof.
  intros Store client pp r [id1 body1] [id2 body2] s Hid Hbody.
  destruct r; simpl in Hid, Hbody;
    try (rewrite (Hid eq_refl)); try (rewrite (Hbody eq_refl)); reflexivity.
Qed.

Lemma unread_request_parts_do_not_matter_witness :
  (reads_id DELETE = true ->
   params_id (mkRequest "1" (JObj laptop)) = params_id (mkRequest "1" (JObj []))) /\
  (reads_body DELETE = true ->
   req_body (mkRequest "1" (JObj laptop)) = req_body (mkRequest "1" (JObj []))) /\
  serve connected DELETE (mkRequest "1" (JObj laptop)) one_chair
    = serve connected DELETE (mkRequest "1" (JObj [])) one_chair.
Proof.
  assert (Hid : reads_id DELETE = true ->
                params_id (mkRequest "1" (JObj laptop)) = params_id (mkRequest "1" (JObj [])))
    by (intros _; reflexivity).
  assert (Hbody : reads_body DELETE = true ->
                  req_body (mkRequest "1" (JObj laptop)) = req_body (mkRequest "1" (JObj [])))
    by (intros H; discriminate H).
  split; [exact Hid | split; [exact Hbody |]].
  exact (unread_request_parts_do_not_matter Table RefStore.client connected
           DELETE (mkRequest "1" (JObj laptop)) (mkRequest "1" (JObj [])) one_chair
           Hid Hbody).
Defined.

(* ===================================================================== *)
(** ** Further properties of config/database.js                           *)
(* ===================================================================== *)

(** [poolPromise] never rejects: it fulfills with the pool when the
    connection attempt succeeds, after logging the success, and with
    [undefined] otherwise; so it holds a pool exactly when the attempt
    succeeded. *)
Theorem pool_promise_never_rejects :
  forall (connect : Config -> Promise Pool) (env : Env),
    (exists handle, poolPromise connect env = Fulfilled handle) /\
    (forall pool, connect (config env) = Fulfilled pool ->
       poolPromise_logged connect env
       = (Fulfilled (Some pool), [("Database connected successfully", None)])) /\
    (pool_ready (poolPromise connect env) = true <->
     exists pool, connect (config env) = Fulfilled pool).
Proof.
  intros connect env. unfold poolPromise, poolPromise_logged.
  destruct (connect (config env)) as [pool | reason]; simpl.
  - split; [eexists; reflexivity |].
    split; [intros ? [= <-]; reflexivity |].
    split; [intros _; eexists; reflexivity | reflexivity].
  - split; [eexists; reflexivity |].
    split; [intros ? H; discriminate H |].
    split; [intros H; discriminate H | intros [? H]; discriminate H].
Qed.

Section ParseInt.

Lemma read_digits_uint (d : Decimal.uint) :
  forall (acc : N) (rest : string),
    stops_decimal rest ->
    read_digits 10 (Some (Z.of_N acc)) (NilEmpty.string_of_uint d ++ rest)
    = Some (Z.of_N (acc * 10 ^ DecimalPos.Unsigned.usize d
                    + DecimalPos.Unsigned.of_lu (Decimal.rev d))%N).
Proof.
  induction d as [ | d IH | d IH | d IH | d IH | d IH | d IH | d IH | d IH
                   | d IH | d IH ]; intros acc rest Hstops.
  1: { cbn [NilEmpty.string_of_uint String.append DecimalPos.Unsigned.usize].
       unfold Decimal.rev; cbn [Decimal.revapp DecimalPos.Unsigned.of_lu].
       replace (acc * 10 ^ 0 + 0)%N with acc by (rewrite N.pow_0_r; lia).
       destruct rest as [ | c rest]; [reflexivity |].
       destruct Hstops as [Hstops _]. cbn [read_digits]. now rewrite Hstops. }
  all: cbn [NilEmpty.string_of_uint String.append read_digits];
    match goal with
    | |- context [digit_value 10 ?c] =>
        let v := eval vm_compute in (digit_value 10 c) in
        change (digit_value 10 c) with v
    end;
    cbv iota beta;
    match goal with
    | |- context [Some (Z.of_N ?a * 10 + ?k)] =>
        replace (Z.of_N a * 10 + k) with (Z.of_N (a * 10 + Z.to_N k))
          by (cbn [Z.to_N]; lia)
    end;
    rewrite (IH _ rest Hstops); do 2 f_equal;
    match goal with
    | |- context [Decimal.rev (?digit ?tail)] =>
        change (Decimal.rev (digit tail))
          with (Decimal.revapp tail (digit Decimal.Nil))
    end;
    rewrite DecimalPos.Unsigned.of_lu_revapp;
    cbn [DecimalPos.Unsigned.usize DecimalPos.Unsigned.of_lu Z.to_N];
    rewrite N.pow_succ_r'; ring.
Qed.

Lemma hex_prefix_needs_zero (c : ascii) (rest tail : string) :
  strip_hex_prefix (String c rest) = Some tail -> c = "0"%char.
Proof.
  destruct c as [[] [] [] [] [] [] [] []]; simpl;
    intros H; try discriminate H; reflexivity.
Qed.

Lemma hex_prefix_needs_x (c : ascii) (rest tail : string) :
  strip_hex_prefix (String "0" (String c rest)) = Some tail ->
  c = "x"%char \/ c = "X"%char.
Proof.
  destruct c as [[] [] [] [] [] [] [] []]; simpl;
    intros H; try discriminate H; auto.
Qed.

Lemma digits_have_no_hex_prefix (d : Decimal.uint) (rest : string) :
  stops_decimal rest ->
  strip_hex_prefix (NilEmpty.string_of_uint d ++ rest) = None.
Proof.
  intros Hstops.
  destruct (strip_hex_prefix (NilEmpty.string_of_uint d ++ rest))
    as [tail | ] eqn:Hprefix; [exfalso | reflexivity].
  destruct d as [ | d | d | d | d | d | d | d | d | d | d ];
    cbn [NilEmpty.string_of_uint String.append] in Hprefix;
    try discriminate Hprefix.
  - destruct rest as [ | c rest]; [discriminate Hprefix |].
    apply hex_prefix_needs_zero in Hprefix. subst c.
    destruct Hstops as [Hstops _]. discriminate Hstops.
  - destruct d as [ | d | d | d | d | d | d | d | d | d | d ];
      cbn [NilEmpty.string_of_uint String.append] in Hprefix;
      try discriminate Hprefix.
    destruct rest as [ | c rest]; [discriminate Hprefix |].
    apply hex_prefix_needs_x in Hprefix.
    destruct Hstops as (_ & Hx & HX). destruct Hprefix; contradiction.
Qed.

Lemma read_digits_number (d : Decimal.uint) (rest : string) :
  d <> Decimal.Nil ->
  stops_decimal rest ->
  read_digits 10 None (NilEmpty.string_of_uint d ++ rest)
  = Some (Z.of_N (Pos.of_uint d)).
Proof.
  intros Hdigits Hstops. rewrite DecimalPos.Unsigned.of_uint_alt.
  destruct d as [ | d | d | d | d | d | d | d | d | d | d ];
    [contradiction | ..];
    cbn [NilEmpty.string_of_uint String.append read_digits];
    match goal with
    | |- context [digit_value 10 ?c] =>
        let v := eval vm_compute in (digit_value 10 c) in
        change (digit_value 10 c) with v
    end;
    cbv iota beta;
    match goal with
    | |- read_digits 10 (Some ?k) _ = _ =>
        change k with (Z.of_N (Z.to_N k))
    end;
    rewrite (read_digits_uint d _ rest Hstops); do 2 f_equal;
    match goal with
    | |- context [Decimal.rev (?digit ?tail)] =>
        change (Decimal.rev (digit tail))
          with (Decimal.revapp tail (digit Decimal.Nil))
    end;
    rewrite DecimalPos.Unsigned.of_lu_revapp;
    cbn [DecimalPos.Unsigned.of_lu Z.to_N]; ring.
Qed.

(** A first byte that starts no white space stays in front. *)
Lemma skip_spaces_keeps (c : ascii) (rest : string) :
  is_ascii_space c = false ->
  (nat_of_ascii c < 194)%nat ->
  skip_spaces (String c rest) = String c rest.
Proof.
  intros Hspace Hlow. cbn [skip_spaces]. rewrite Hspace.
  assert (H194 : Nat.eqb (nat_of_ascii c) 194 = false)
    by (apply Nat.eqb_neq; lia).
  assert (H225 : Nat.eqb (nat_of_ascii c) 225 = false)
    by (apply Nat.eqb_neq; lia).
  assert (H226 : Nat.eqb (nat_of_ascii c) 226 = false)
    by (apply Nat.eqb_neq; lia).
  assert (H227 : Nat.eqb (nat_of_ascii c) 227 = false)
    by (apply Nat.eqb_neq; lia).
  assert (H239 : Nat.eqb (nat_of_ascii c) 239 = false)
    by (apply Nat.eqb_neq; lia).
  destruct rest as [ | c2 [ | c3 rest]]; try reflexivity;
    unfold is_space2, is_space3; rewrite ?H194, ?H225, ?H226, ?H227, ?H239;
    reflexivity.
Qed.

Lemma skip_spaces_keeps_digits (d : Decimal.uint) (rest : string) :
  d <> Decimal.Nil ->
  skip_spaces (NilEmpty.string_of_uint d ++ rest)
  = NilEmpty.string_of_uint d ++ rest.
Proof.
  intros Hdigits.
  destruct d; [contradiction | ..];
    cbn [NilEmpty.string_of_uint String.append];
    (apply skip_spaces_keeps; [reflexivity | apply Nat.ltb_lt; reflexivity]).
Qed.

(** [parseInt] on a text with no sign after its white space. *)
Lemma integer_text_unsigned (s : string) :
  (forall r, skip_spaces s <> String "-" r) ->
  (forall r, skip_spaces s <> String "+" r) ->
  integer_text s =
    match strip_hex_prefix (skip_spaces s) with
    | Some digits => read_digits 16 None digits
    | None => read_digits 10 None (skip_spaces s)
    end.
Proof.
  unfold integer_text. destruct (skip_spaces s) as [ | c r].
  - reflexivity.
  - intros Hminus Hplus.
    destruct c as [[] [] [] [] [] [] [] []];
      try (exfalso; apply (Hminus r); reflexivity);
      try (exfalso; apply (Hplus r); reflexivity);
      cbv beta iota zeta;
      match goal with
      | |- option_map _ ?m = _ => destruct m; reflexivity
      end.
Qed.

Lemma integer_text_negative (s : string) :
  integer_text (String "-" s) =
    option_map Z.opp
      match strip_hex_prefix s with
      | Some digits => read_digits 16 None digits
      | None => read_digits 10 None s
      end.
Proof.
  unfold integer_text.
  rewrite skip_spaces_keeps; [reflexivity | reflexivity |].
  apply Nat.ltb_lt; reflexivity.
Qed.

Lemma integer_text_digits (d : Decimal.uint) (rest : string) :
  d <> Decimal.Nil ->
  stops_decimal rest ->
  integer_text (NilEmpty.string_of_uint d ++ rest)
  = Some (Z.of_N (Pos.of_uint d)).
Proof.
  intros Hdigits Hstops.
  rewrite integer_text_unsigned; rewrite (skip_spaces_keeps_digits d rest Hdigits).
  - now rewrite digits_have_no_hex_prefix, read_digits_number.
  - destruct d; [contradiction | ..]; intros r H; discriminate H.
  - destruct d; [contradiction | ..]; intros r H; discriminate H.
Qed.

Lemma decimal_string_positive (p : positive) :
  decimal_string (Zpos p) = NilEmpty.string_of_uint (Pos.to_uint p).
Proof.
  unfold decimal_string; simpl.
  pose proof (DecimalPos.Unsigned.to_uint_nonnil p) as Hdigits.
  destruct (Pos.to_uint p); [contradiction | reflexivity ..].
Qed.

(** The integer read from a number written in decimal is that number,
    whatever follows its digits. *)
Lemma integer_text_decimal_string (n : Z) (rest : string) :
  stops_decimal rest ->
  integer_text (decimal_string n ++ rest) = Some n.
Proof.
  intros Hstops. destruct n as [ | p | p].
  - change (decimal_string 0)
      with (NilEmpty.string_of_uint (Decimal.D0 Decimal.Nil)).
    rewrite integer_text_digits; [reflexivity | discriminate | exact Hstops].
  - rewrite decimal_string_positive, integer_text_digits;
      [| apply DecimalPos.Unsigned.to_uint_nonnil | exact Hstops].
    now rewrite DecimalPos.Unsigned.of_to.
  - change (decimal_string (Zneg p))
      with (String "-" (decimal_string (Zpos p))).
    rewrite decimal_string_positive.
    cbn [String.append]. rewrite integer_text_negative.
    rewrite digits_have_no_hex_prefix, read_digits_number;
      [| apply DecimalPos.Unsigned.to_uint_nonnil | exact Hstops ..].
    now rewrite DecimalPos.Unsigned.of_to.
Qed.

(** An integer of at most 53 bits is a double. *)
Lemma nearest_double_exact (n : Z) :
  Z.abs n < 2 ^ 53 -> nearest_double n = Finite n.
Proof.
  intros Hsmall. unfold nearest_double.
  assert (Hbits : (Z.log2 (Z.abs n) + 1 <=? 53) = true).
  { apply Z.leb_le.
    destruct (Z.eq_dec (Z.abs n) 0) as [Hzero | Hnonzero].
    - rewrite Hzero. simpl. lia.
    - assert (Z.log2 (Z.abs n) < 53); [| lia].
      apply Z.log2_lt_pow2; lia. }
  cbv zeta. rewrite Hbits. reflexivity.
Qed.

End ParseInt.

(** The port of the configuration is the double nearest to the integer
    DB_PORT starts with: a number written in decimal, with or without a
    minus sign, is read, whatever follows its digits is ignored, and the
    port is exactly that number when it is below 2^53 in magnitude. *)
Theorem port_is_the_leading_number :
  forall (env : Env) (n : Z) (rest : string),
    stops_decimal rest ->
    env "DB_PORT" = Some (decimal_string n ++ rest) ->
    port (config env) = nearest_double n /\
    (Z.abs n < 2 ^ 53 -> port (config env) = Finite n).
Proof.
  intros env n rest Hstops Hset.
  assert (Hport : port (config env) = nearest_double n).
  { unfold config; cbn [port]. rewrite Hset. cbn [parseInt].
    unfold parseInt_string.
    now rewrite (integer_text_decimal_string n rest Hstops). }
  split; [exact Hport |].
  intros Hsmall. rewrite Hport. now apply nearest_double_exact.
Qed.

Lemma port_is_the_leading_number_witness :
  stops_decimal " # default" /\
  port_with_comment "DB_PORT" = Some (decimal_string 1433 ++ " # default") /\
  port (config port_with_comment) = Finite 1433.
Proof.
  assert (Hstops : stops_decimal " # default").
  { simpl. split; [reflexivity | split; intros H; discriminate H]. }
  assert (Hset : port_with_comment "DB_PORT"
                 = Some (decimal_string 1433 ++ " # default"))
    by reflexivity.
  split; [exact Hstops | split; [exact Hset |]].
  apply (proj2 (port_is_the_leading_number port_with_comment 1433
                  " # default" Hstops Hset)).
  reflexivity.
Defined.

(** The port is NaN when DB_PORT is not set, or when after its leading
    white space there is nothing or a character that is no sign and no
    decimal digit: the configuration is built all the same and carries
    the NaN to the driver. *)
Theorem port_is_NaN_without_a_number :
  forall env : Env,
    env "DB_PORT" = None \/
    (exists text, env "DB_PORT" = Some text /\ starts_without_number text) ->
    port (config env) = NaN.
Proof.
  intros env [Hunset | (text & Hset & Hstart)]; unfold config; cbn [port].
  - rewrite Hunset. reflexivity.
  - rewrite Hset. cbn [parseInt]. unfold parseInt_string.
    unfold starts_without_number in Hstart.
    rewrite integer_text_unsigned.
    + destruct (skip_spaces text) as [ | c rest]; [reflexivity |].
      destruct Hstart as (Hminus & Hplus & Hdigit).
      destruct (strip_hex_prefix (String c rest)) as [tail | ] eqn:Hprefix.
      * apply hex_prefix_needs_zero in Hprefix. subst c. discriminate Hdigit.
      * cbn [read_digits]. now rewrite Hdigit.
    + intros r Hsame. rewrite Hsame in Hstart.
      destruct Hstart as (Hminus & _). now apply Hminus.
    + intros r Hsame. rewrite Hsame in Hstart.
      destruct Hstart as (_ & Hplus & _). now apply Hplus.
Qed.

Lemma port_is_NaN_without_a_number_witness :
  (nothing_set "DB_PORT" = None \/
   (exists text, nothing_set "DB_PORT" = Some text /\
                 starts_without_number text)) /\
  port (config nothing_set) = NaN.
Proof.
  assert (Hunset :
    nothing_set "DB_PORT" = None \/
    (exists text, nothing_set "DB_PORT" = Some text /\
                  starts_without_number text))
    by (left; reflexivity).
  split; [exact Hunset |].
  exact (port_is_NaN_without_a_number nothing_set Hunset).
Defined.

Lemma write_without_count_is_success_witness :
  (PUT = PUT \/ PUT = DELETE) /\
  passes_validation PUT plain_put = true /\
  @run_query unit uncounted tt (statement_of PUT plain_put)
    = (tt, inl (mkResult [] [])) /\
  rowsAffected (mkResult [] []) = [] /\
  sent (@serve unit uncounted connected PUT plain_put tt)
    = [mkResponse 200 (Text "Product updated successfully")].
Proof.
  assert (Hroute : PUT = PUT \/ PUT = DELETE) by (left; reflexivity).
  assert (Hpasses : passes_validation PUT plain_put = true) by reflexivity.
  assert (Hanswer : @run_query unit uncounted tt (statement_of PUT plain_put)
                    = (tt, inl (mkResult [] [])))
    by reflexivity.
  assert (Hnone : rowsAffected (mkResult [] []) = []) by reflexivity.
  split; [exact Hroute | split; [exact Hpasses |]].
  split; [exact Hanswer | split; [exact Hnone |]].
  exact (write_without_count_is_success unit uncounted
           (mkPool (config nothing_set)) PUT plain_put tt tt
           (mkResult [] []) Hroute Hpasses Hanswer Hnone).
Defined.

(* ===================================================================== *)
(** ** How the handlers compose on the reference store                    *)
(* ===================================================================== *)

Section Composition.

Lemma reference_delete (path : string) (id : Z) (body : JsObject) (t : Table) :
  integer_literal path = Some id ->
  int_min <= id <= int_max ->
  run_query t (delete_statement (mkRequest path (JObj body)))
  = (mkTable (filter (fun r => negb (matches_id id r)) (rows t))
             (next_identity t),
     inl (mkResult [] [Z.of_nat (List.length (filter (matches_id id) (rows t)))])).
Proof.
  intros Hliteral Hrange.
  change (run_query t (delete_statement (mkRequest path (JObj body))))
    with (delete_by_id [mkParam "id" Int (JStr path)] t).
  unfold delete_by_id.
  change (variable "id" [mkParam "id" Int (JStr path)])
    with (bind_value Int (JStr path)).
  rewrite (bind_path_id path id Hliteral Hrange). reflexivity.
Qed.

Lemma reference_update
      (path : string) (id : Z) (body : JsObject) (t : Table)
      (name description : string) (price qty : Z) :
  column_values (body_inputs body) = inl (name, price, qty, description) ->
  integer_literal path = Some id ->
  int_min <= id <= int_max ->
  run_query t (update_statement (mkRequest path (JObj body)))
  = (mkTable
       (map (fun r => if matches_id id r
                      then mkRow (row_id r) name price qty description
                      else r) (rows t))
       (next_identity t),
     inl (mkResult [] [Z.of_nat (List.length (filter (matches_id id) (rows t)))])).
Proof.
  intros Hcolumns Hliteral Hrange.
  change (run_query t (update_statement (mkRequest path (JObj body))))
    with (update (mkParam "id" Int (JStr path) :: body_inputs body) t).
  unfold update.
  change (variable "id" (mkParam "id" Int (JStr path) :: body_inputs body))
    with (bind_value Int (JStr path)).
  rewrite (bind_path_id path id Hliteral Hrange).
  rewrite column_values_skip_id, Hcolumns. reflexivity.
Qed.

Lemma filter_after_delete (id : Z) (l : list ProductRow) :
  filter (matches_id id) (filter (fun r => negb (matches_id id r)) l) = [].
Proof.
  apply filter_no_match. intros row Hin Hid.
  apply filter_In in Hin as [_ Hkept].
  unfold matches_id in Hkept. rewrite Hid, Z.eqb_refl in Hkept.
  discriminate Hkept.
Qed.

Lemma count_of_present_id (id : Z) (row : ProductRow) (l : list ProductRow) :
  In row l -> row_id row = id ->
  (Z.of_nat (List.length (filter (matches_id id) l)) =? 0) = false.
Proof.
  intros Hin Hid. apply Z.eqb_neq.
  assert (Hhit : In row (filter (matches_id id) l)).
  { apply filter_In. split; [exact Hin |].
    unfold matches_id. rewrite Hid. apply Z.eqb_refl. }
  destruct (filter (matches_id id) l); [contradiction | simpl; lia].
Qed.

End Composition.

(** On the reference model of the store (the table itself is not in the
    repository): DELETE of an id that a row has is answered 200 with the
    success text and removes exactly the rows with that id, and a GET of
    the same id straight after is answered 404. *)
Theorem delete_then_get_is_not_found :
  forall (pool : Pool) (path : string) (id : Z) (body other : JsObject)
         (t : Table) (row : ProductRow),
    integer_literal path = Some id ->
    int_min <= id <= int_max ->
    In row (rows t) ->
    row_id row = id ->
    sent (serve (Fulfilled (Some pool)) DELETE (mkRequest path (JObj body)) t)
      = [mkResponse 200 (Text "Product deleted successfully")] /\
    rows (db (serve (Fulfilled (Some pool)) DELETE (mkRequest path (JObj body)) t))
      = filter (fun r => negb (matches_id id r)) (rows t) /\
    sent (serve (Fulfilled (Some pool)) GET_by_id (mkRequest path (JObj other))
            (db (serve (Fulfilled (Some pool)) DELETE (mkRequest path (JObj body)) t)))
      = [mkResponse 404 (Text "Product not found")].
Proof.
  intros pool path id body other t row Hliteral Hrange Hin Hid.
  rewrite (delete_run pool (mkRequest path (JObj body)) t _ _
             (reference_delete path id body t Hliteral Hrange)).
  unfold first_count_is_zero; cbn [rowsAffected].
  rewrite (count_of_present_id id row (rows t) Hin Hid).
  cbn [sent db rows]. repeat split.
  rewrite (get_by_id_run pool (mkRequest path (JObj other)) _ _ _
             (reference_select path id other _ Hliteral Hrange)).
  unfold recordset; cbn [recordsets hd_error rows].
  rewrite filter_after_delete. reflexivity.
Qed.

Lemma delete_then_get_is_not_found_witness :
  integer_literal "2" = Some 2 /\
  int_min <= 2 <= int_max /\
  In (mkRow 2 "Desk" 12000 1 EmptyString) (rows two_rows) /\
  row_id (mkRow 2 "Desk" 12000 1 EmptyString) = 2 /\
  sent (serve connected DELETE (mkRequest "2" (JObj [])) two_rows)
    = [mkResponse 200 (Text "Product deleted successfully")] /\
  rows (db (serve connected DELETE (mkRequest "2" (JObj [])) two_rows))
    = filter (fun r => negb (matches_id 2 r)) (rows two_rows) /\
  sent (serve connected GET_by_id (mkRequest "2" (JObj []))
          (db (serve connected DELETE (mkRequest "2" (JObj [])) two_rows)))
    = [mkResponse 404 (Text "Product not found")].
Proof.
  assert (Hliteral : integer_literal "2" = Some 2) by reflexivity.
  assert (Hrange : int_min <= 2 <= int_max) by (unfold int_min, int_max; lia).
  assert (Hin : In (mkRow 2 "Desk" 12000 1 EmptyString) (rows two_rows))
    by (right; left; reflexivity).
  assert (Hid : row_id (mkRow 2 "Desk" 12000 1 EmptyString) = 2)
    by reflexivity.
  split; [exact Hliteral | split; [exact Hrange |]].
  split; [exact Hin | split; [exact Hid |]].
  exact (delete_then_get_is_not_found (mkPool (config nothing_set)) "2" 2 [] []
           two_rows _ Hliteral Hrange Hin Hid).
Defined.

(** On the reference model of the store: PUT of a valid payload on an id
    that a row of a well-formed table has is answered 200 with the success
    text, keeps the ids of the table as they are and leaves every row with
    another id untouched; a GET of the same id straight after returns a
    record with that id that matches the payload. *)
Theorem put_then_get_round_trip :
  forall (pool : Pool) (path : string) (id : Z) (payload other : JsObject)
         (t : Table) (row : ProductRow),
    well_formed t ->
    valid_payload payload = true ->
    integer_literal path = Some id ->
    int_min <= id <= int_max ->
    In row (rows t) ->
    row_id row = id ->
    sent (serve (Fulfilled (Some pool)) PUT (mkRequest path (JObj payload)) t)
      = [mkResponse 200 (Text "Product updated successfully")] /\
    map row_id
        (rows (db (serve (Fulfilled (Some pool)) PUT (mkRequest path (JObj payload)) t)))
      = map row_id (rows t) /\
    (forall kept, In kept (rows t) -> row_id kept <> id ->
       In kept
          (rows (db (serve (Fulfilled (Some pool)) PUT
                           (mkRequest path (JObj payload)) t)))) /\
    exists record : JsObject,
      sent (serve (Fulfilled (Some pool)) GET_by_id (mkRequest path (JObj other))
              (db (serve (Fulfilled (Some pool)) PUT (mkRequest path (JObj payload)) t)))
        = [mkResponse 200 (Json (JObj record))] /\
      get_field "id" record = JNum (inject_Z id) /\
      matches_payload record payload.
Proof.
  intros pool path id payload other t row (Hnodup & _ & _) Hvalid
         Hliteral Hrange Hin Hid.
  destruct (valid_payload_columns payload Hvalid)
    as (name & price & qty & description & Hname & Hprice & Hqty
        & Hdescription & Hcents & Hwhole & Hpresent & Hcolumns).
  rewrite (put_run pool (mkRequest path (JObj payload)) t _ _ Hpresent
             (reference_update path id payload t _ _ _ _
                Hcolumns Hliteral Hrange)).
  unfold first_count_is_zero; cbn [rowsAffected].
  rewrite (count_of_present_id id row (rows t) Hin Hid).
  cbn [sent db rows].
  pose (replacement := fun r : ProductRow =>
          mkRow (row_id r) name (Qfloor (price * 100)) (Qfloor qty) description).
  pose (updated := map (fun r => if matches_id id r then replacement r else r)
                       (rows t)).
  change (map (fun r => if matches_id id r then _ else r) (rows t))
    with updated.
  assert (Hids : map row_id updated = map row_id (rows t))
    by (apply ids_after_update; reflexivity).
  split; [reflexivity | split; [exact Hids | split]].
  - intros kept Hkept Hother. apply in_map_iff. exists kept. split; [| exact Hkept].
    unfold matches_id. destruct (Z.eqb_spec (row_id kept) id); [contradiction |].
    reflexivity.
  - assert (Hnew : In (replacement row) updated).
    { apply in_map_iff. exists row. split; [| exact Hin].
      unfold matches_id. rewrite Hid, Z.eqb_refl. reflexivity. }
    pose proof (reference_select path id other
                  (mkTable updated (next_identity t)) Hliteral Hrange)
      as Hselect.
    cbn [rows] in Hselect.
    assert (Hfound : filter (matches_id id) updated = [replacement row]).
    { rewrite <- Hid.
      change (row_id row) with (row_id (replacement row)).
      apply filter_unique; [rewrite Hids; exact Hnodup | exact Hnew]. }
    rewrite Hfound in Hselect.
    rewrite (get_by_id_run pool (mkRequest path (JObj other)) _ _ _ Hselect).
    unfold recordset; cbn [recordsets hd_error map sent].
    eexists. split; [reflexivity |].
    unfold matches_payload, same_value.
    rewrite Hname, Hprice, Hqty, Hdescription.
    cbn [get_field String.eqb Ascii.eqb Bool.eqb andb replacement row_id
         row_name row_price row_qty row_description].
    rewrite Hid. repeat split.
    + now apply hundredths_of_price.
    + now apply integer_is_its_floor.
Qed.

Lemma put_then_get_round_trip_witness :
  well_formed one_chair /\
  valid_payload laptop = true /\
  integer_literal "1" = Some 1 /\
  int_min <= 1 <= int_max /\
  In (mkRow 1 "Chair" 4500 2 "oak") (rows one_chair) /\
  row_id (mkRow 1 "Chair" 4500 2 "oak") = 1 /\
  sent (serve connected PUT plain_put one_chair)
    = [mkResponse 200 (Text "Product updated successfully")] /\
  exists record : JsObject,
    sent (serve connected GET_by_id get_one
            (db (serve connected PUT plain_put one_chair)))
      = [mkResponse 200 (Json (JObj record))] /\
    get_field "id" record = JNum 1 /\
    matches_payload record laptop.
Proof.
  assert (Hformed : well_formed one_chair).
  { unfold well_formed; simpl. repeat split; repeat constructor.
    intros []. }
  assert (Hvalid : valid_payload laptop = true) by reflexivity.
  assert (Hliteral : integer_literal "1" = Some 1) by reflexivity.
  assert (Hrange : int_min <= 1 <= int_max) by (unfold int_min, int_max; lia).
  assert (Hin : In (mkRow 1 "Chair" 4500 2 "oak") (rows one_chair))
    by (left; reflexivity).
  assert (Hid : row_id (mkRow 1 "Chair" 4500 2 "oak") = 1) by reflexivity.
  destruct (put_then_get_round_trip (mkPool (config nothing_set)) "1" 1 laptop
              [] one_chair _ Hformed Hvalid Hliteral Hrange Hin Hid)
    as (Hsent & _ & _ & Hread).
  split; [exact Hformed | split; [exact Hvalid | split; [exact Hliteral |]]].
  split; [exact Hrange | split; [exact Hin | split; [exact Hid |]]].
  split; [exact Hsent | exact Hread].
Defined.

(** On the reference model of the store: whatever request is served, in
    whatever state of the pool, a well-formed table stays well formed: ids
    stay unique and below the next identity value. *)
Theorem serving_keeps_the_table_well_formed :
  forall (pp : Promise (option Pool)) (r : Route) (req : Request) (t : Table),
    well_formed t ->
    well_formed (db (serve pp r req t)).
Proof.
  intros pp r req t Hformed. rewrite store_characterised.
  destruct (pool_ready pp && passes_validation r req); [| exact Hformed].
  apply (execute_keeps_well_formed t (statement_of r req) Hformed).
Qed.

Lemma serving_keeps_the_table_well_formed_witness :
  well_formed empty_table /\
  well_formed (db (serve connected POST (mkRequest "0" (JObj laptop)) empty_table)).
Proof.
  split; [exact empty_table_well_formed |].
  exact (serving_keeps_the_table_well_formed connected POST
           (mkRequest "0" (JObj laptop)) empty_table empty_table_well_formed).
Defined.

(* ===================================================================== *)
(** ** [parseInt] at the edges                                            *)
(* ===================================================================== *)

(** A no-break space in front of the digits is skipped like a blank. *)
Example no_break_space_is_skipped :
  parseInt_string
    (String (ascii_of_nat 194) (String (ascii_of_nat 160) "1433"))
  = Finite 1433.
Proof. vm_compute. reflexivity. Qed.

(** Above 2^53 the integer read is rounded to the nearest double, a tie
    going to the even neighbour. *)
Example large_integers_are_rounded :
  parseInt_string "9007199254740993" = Finite 9007199254740992 /\
  parseInt_string "9007199254740995" = Finite 9007199254740996 /\
  parseInt_string "-9007199254740993" = Finite (-9007199254740992) /\
  parseInt_string "0x20000000000001" = Finite 9007199254740992.
Proof. vm_compute. repeat split. Qed.

(** A hex prefix switches the radix, and a prefix with no digit gives
    NaN. *)
Example hex_prefix_is_read :
  parseInt_string "0x1F" = Finite 31 /\
  parseInt_string "-0X10" = Finite (-16) /\
  parseInt_string "0x" = NaN.
Proof. vm_compute. repeat split. Qed.
